(** * Car detection API: the detector (src/car_detector.py) and the
      FastAPI handlers (src/api.py), embedded as state-and-exception
      passing programs over a small model of the Python runtime. *)

From Stdlib Require Import PrimFloat.
From stdpp Require Import gmap strings list pretty.

Set Default Proof Using "Type".
Set Warnings "-inexact-float".

(** ** The Python runtime the two modules run on *)

Module Py.

(** A [bytes] object. *)
Abbreviation bytes := (list Byte.byte).

(** The exceptions the two modules can see.  All of them are subclasses of
    [Exception], so [except Exception] catches every one of them. *)
Inductive exn : Type :=
| FileNotFoundError (msg : string)
| KeyError (key : Z)
| IndexError (msg : string)
| TypeError (msg : string)
| AttributeError (msg : string)
| ValueError (msg : string)
| OSError (msg : string)
| LibraryError (msg : string)               (* raised inside PIL / torch / transformers *)
| HTTPException (status_code : Z) (detail : string).

(** [str(e)]. *)
Definition str (e : exn) : string :=
  match e with
  | FileNotFoundError msg => msg
  | KeyError key => pretty key
  | IndexError msg => msg
  | TypeError msg => msg
  | AttributeError msg => msg
  | ValueError msg => msg
  | OSError msg => msg
  | LibraryError msg => msg
  | HTTPException status_code detail => pretty status_code +:+ ": " +:+ detail
  end.

(** What the program does to its environment, in the order it does it. *)
Inductive Event : Type :=
| logger_info (msg : string)
| logger_error (msg : string)
| os_path_exists (path : string)
| os_unlink (path : string)
| NamedTemporaryFile (name : string)
| tmp_file_write (name : string) (content : bytes)
| Image_open_call (path : string)
| Image_convert_call (mode : string)
| processor_call
| model_call
| post_process_object_detection_call (target_sizes : list (Z * Z)) (threshold : float)
| from_pretrained_call (cls model_name : string).

(** The environment: the filesystem and the record of the calls made. *)
Record World : Type := mkWorld {
  fs : gmap string bytes;
  trace : list Event
}.

Definition emit (ev : Event) (w : World) : World :=
  {| fs := fs w; trace := trace w ++ [ev] |}.

(** A computation over Python-level state [X] (the object or the module
    globals it works on) and the world; it either returns or raises, and
    in both cases leaves a state behind. *)
Definition M (X A : Type) : Type := X * World -> (exn + A) * (X * World).

Definition ret {X A} (a : A) : M X A := fun s => (inr a, s).

Definition raise {X A} (e : exn) : M X A := fun s => (inl e, s).

Definition bind {X A B} (m : M X A) (k : A -> M X B) : M X B :=
  fun s =>
    match m s with
    | (inl e, s') => (inl e, s')
    | (inr a, s') => k a s'
    end.

Declare Scope py_scope.
Delimit Scope py_scope with py.
Notation "'let!' x ':=' c 'in' k" := (bind c (fun x => k))
  (at level 10, x name, c at level 100, k at level 200, only parsing) : py_scope.
Notation "'let!' ' pat ':=' c 'in' k" := (bind c (fun x => match x with pat => k end))
  (at level 10, pat pattern, c at level 100, k at level 200, only parsing) : py_scope.
Local Open Scope py_scope.

(** [try: body  except Exception as e: handler e]. *)
Definition try_except {X A} (body : M X A) (handler : exn -> M X A) : M X A :=
  fun s =>
    match body s with
    | (inl e, s') => handler e s'
    | (inr a, s') => (inr a, s')
    end.

(** [try: body  finally: cleanup]: the cleanup runs on both exits; the
    outcome of the body stands unless the cleanup itself raises. *)
Definition try_finally {X A} (body : M X A) (cleanup : M X unit) : M X A :=
  fun s =>
    match body s with
    | (r, s') =>
        match cleanup s' with
        | (inl e, s'') => (inl e, s'')
        | (inr _, s'') => (r, s'')
        end
    end.

(** Reading and assigning the Python-level state. *)
Definition get {X} : M X X := fun s => (inr (fst s), s).
Definition put {X} (x : X) : M X unit := fun s => (inr tt, (x, snd s)).

(** Recording a call. *)
Definition tell {X} (ev : Event) : M X unit :=
  fun s => (inr tt, (fst s, emit ev (snd s))).

(** An operation of the operating system on the world. *)
Definition perform {X A} (f : World -> (exn + A) * World) : M X A :=
  fun s =>
    match f (snd s) with
    | (r, w') => (r, (fst s, w'))
    end.

(** The outcome of a library call: it returned a value or it raised. *)
Definition outcome {X A} (r : exn + A) : M X A :=
  match r with
  | inl e => raise e
  | inr a => ret a
  end.

(** A call of a library function that touches nothing but its arguments. *)
Definition call {X A} (ev : Event) (r : exn + A) : M X A :=
  let! _ := tell ev in outcome r.

Definition log_info {X} (msg : string) : M X unit := tell (logger_info msg).

Definition log_error {X} (msg : string) : M X unit := tell (logger_error msg).

(** [os.path.exists(path)]. *)
Definition exists_ {X} (path : string) : M X bool :=
  let! _ := tell (os_path_exists path) in
  perform (fun w => (inr (bool_decide (is_Some (fs w !! path))), w)).

(** [os.unlink(path)]. *)
Definition unlink {X} (path : string) : M X unit :=
  let! _ := tell (os_unlink path) in
  perform
    (fun w =>
       match fs w !! path with
       | Some _ => (inr tt, {| fs := delete path (fs w); trace := trace w |})
       | None =>
           (inl (FileNotFoundError
                   ("[Errno 2] No such file or directory: '" +:+ path +:+ "'")), w)
       end).

(** [for x in xs: acc = body x acc], the loop's local variables being [acc]. *)
Fixpoint for_in {X A Acc} (xs : list A) (body : A -> Acc -> M X Acc) (acc : Acc) : M X Acc :=
  match xs with
  | [] => ret acc
  | x :: xs' => let! acc' := body x acc in for_in xs' body acc'
  end.

(** [zip(a, b, c)]: stops with the shortest argument. *)
Fixpoint zip3 {A B C} (a : list A) (b : list B) (c : list C) : list (A * B * C) :=
  match a, b, c with
  | x :: a', y :: b', z :: c' => (x, y, z) :: zip3 a' b' c'
  | _, _, _ => []
  end.

(** [d[k]] on a dict, kept as its items in insertion order. *)
Fixpoint dict_get {V} (d : list (Z * V)) (k : Z) : option V :=
  match d with
  | [] => None
  | (k', v) :: d' => if Z.eqb k' k then Some v else dict_get d' k
  end.

Definition getitem {X V} (d : list (Z * V)) (k : Z) : M X V :=
  match dict_get d k with
  | Some v => ret v
  | None => raise (KeyError k)
  end.

(** [l[0]]. *)
Definition getitem0 {X A} (l : list A) : M X A :=
  match l with
  | x :: _ => ret x
  | [] => raise (IndexError "list index out of range")
  end.

(** [reads s s']: from [s] to [s'] the Python-level state and the files
    are the same, and the record of calls has only grown. *)
Definition reads {X} (s s' : X * World) : Prop :=
  fst s' = fst s /\ fs (snd s') = fs (snd s) /\
  exists evs, trace (snd s') = trace (snd s) ++ evs.

(** A computation that assigns nothing and writes no file. *)
Definition read_only {X A} (m : M X A) : Prop :=
  forall s, reads s (snd (m s)).

End Py.

(** ** The libraries behind the detector *)

Module Lib.
Import Py.

(** PIL's images and torch's tensors, as far as the detector looks into
    them.  [Image_decode] is what [Image.open] makes of a file's content. *)
Class Imaging : Type := {
  Image : Type;
  Inputs : Type;
  Outputs : Type;
  Image_decode : bytes -> exn + Image;
  Image_mode : Image -> string;
  Image_size : Image -> Z * Z;
  Image_convert : Image -> string -> exn + Image
}.

(** [results] of the post-processing: three tensors of equal length. *)
Record Results : Type := {
  scores : list float;
  labels : list Z;
  boxes : list (list float)
}.

(** A [DetrImageProcessor] object: calling it ([preprocess]), and its
    post-processing. *)
Record DetrImageProcessor `{Imaging} : Type := {
  preprocess : Image -> exn + Inputs;
  post_process_object_detection : Outputs -> list (Z * Z) -> float -> exn + list Results
}.

(** A [DetrForObjectDetection] object: calling it ([forward]), and
    [config.id2label]. *)
Record DetrForObjectDetection `{Imaging} : Type := {
  forward : Inputs -> exn + Outputs;
  config_id2label : list (Z * string)
}.

(** The [from_pretrained] class methods; the name [tempfile] picks for a
    new file with a given suffix in a given filesystem; the failures of
    the operating system while an upload is saved (each [Some] is the
    message of the [OSError] raised: creating the temporary file, reading
    the upload, and writing or closing the file, which also says what is
    on disk under the name afterwards); and the message of the
    [ValueError] with which the JSON encoder refuses a float that is not
    finite. *)
Class Platform `{Imaging} : Type := {
  DetrImageProcessor_from_pretrained : string -> exn + DetrImageProcessor;
  DetrForObjectDetection_from_pretrained : string -> exn + DetrForObjectDetection;
  mkstemp : gmap string bytes -> string -> string;
  tempfile_error : gmap string bytes -> option string;
  upload_read_error : bytes -> option string;
  tempfile_write_error : gmap string bytes -> string -> bytes -> option (string * bytes);
  json_float_error : float -> string
}.

End Lib.

(** ** src/car_detector.py *)

Module car_detector.
Import Py Lib.
Local Open Scope py_scope.

Section CarDetector.
Context `{Platform}.

(** The attributes of a [CarDetector] object. *)
Record CarDetector : Type := {
  model_name : string;
  confidence_threshold : float;
  processor : option DetrImageProcessor;
  model : option DetrForObjectDetection
}.

(** One element of [car_detections]. *)
Record Detection : Type := {
  label : string;
  confidence : float;
  bbox : list float;
  bbox_format : string
}.

(** The dict [get_model_info] returns. *)
Record ModelInfo : Type := {
  info_model_name : string;
  info_confidence_threshold : float;
  available_labels : option (list string)
}.

Definition set_processor (p : DetrImageProcessor) (self : CarDetector) : CarDetector :=
  {| model_name := model_name self;
     confidence_threshold := confidence_threshold self;
     processor := Some p;
     model := model self |}.

Definition set_model (m : DetrForObjectDetection) (self : CarDetector) : CarDetector :=
  {| model_name := model_name self;
     confidence_threshold := confidence_threshold self;
     processor := processor self;
     model := Some m |}.

(** Calling [self.processor] or [self.model] when it is [None]. *)
Definition callable {A} (o : option A) : M CarDetector A :=
  match o with
  | Some a => ret a
  | None => raise (TypeError "'NoneType' object is not callable")
  end.

(** Reading an attribute of [self.model] when it is [None]. *)
Definition getattr {A} (o : option A) (name : string) : M CarDetector A :=
  match o with
  | Some a => ret a
  | None => raise (AttributeError ("'NoneType' object has no attribute '" +:+ name +:+ "'"))
  end.

(** [CarDetector._load_model]. *)
Definition _load_model : M CarDetector unit :=
  try_except
    (let! self := get in
     let! _ := log_info ("Loading model: " +:+ model_name self) in
     let! p := call (from_pretrained_call "DetrImageProcessor" (model_name self))
                    (DetrImageProcessor_from_pretrained (model_name self)) in
     let! _ := put (set_processor p self) in
     let! self := get in
     let! m := call (from_pretrained_call "DetrForObjectDetection" (model_name self))
                    (DetrForObjectDetection_from_pretrained (model_name self)) in
     let! _ := put (set_model m self) in
     log_info "Model loaded successfully")
    (fun e =>
       let! _ := log_error ("Failed to load model: " +:+ str e) in
       raise e).

(** [CarDetector.__init__], up to the call of [_load_model]. *)
Definition __init__attrs (model_name : string) (confidence_threshold : float) : CarDetector :=
  {| model_name := model_name;
     confidence_threshold := confidence_threshold;
     processor := None;
     model := None |}.

(** [CarDetector(model_name, confidence_threshold)]: a new object, then
    [__init__] on it; the caller gets the object only when [__init__]
    returns. *)
Definition CarDetector_ {X} (model_name : string) (confidence_threshold : float)
  : M X CarDetector :=
  fun s =>
    match _load_model (__init__attrs model_name confidence_threshold, snd s) with
    | (inl e, (_, w')) => (inl e, (fst s, w'))
    | (inr _, (self, w')) => (inr self, (fst s, w'))
    end.

(** [Image.open(image_path)]. *)
Definition Image_open {X} (image_path : string) : M X Image :=
  let! _ := tell (Image_open_call image_path) in
  perform
    (fun w =>
       match fs w !! image_path with
       | Some content => (Image_decode content, w)
       | None =>
           (inl (FileNotFoundError
                   ("[Errno 2] No such file or directory: '" +:+ image_path +:+ "'")), w)
       end).

(** Lines 58-60 of [detect_cars]: the image is opened and brought to RGB. *)
Definition load_image {X} (image_path : string) : M X Image :=
  let! image := Image_open image_path in
  if negb (String.eqb (Image_mode image) "RGB")
  then call (Image_convert_call "RGB") (Image_convert image "RGB")
  else ret image.

(** Lines 62-74 of [detect_cars]: preprocessing, inference, and the
    post-processing, which is given [self.confidence_threshold]. *)
Definition run_inference (image : Image) : M CarDetector Results :=
  let! self := get in
  let! processor_ := callable (processor self) in
  let! inputs := call processor_call (preprocess processor_ image) in
  let! model_ := callable (model self) in
  let! outputs := call model_call (forward model_ inputs) in
  let target_sizes := [ (snd (Image_size image), fst (Image_size image)) ] in
  let! results_list :=
     call (post_process_object_detection_call target_sizes (confidence_threshold self))
          (post_process_object_detection processor_ outputs target_sizes
                                         (confidence_threshold self)) in
  getitem0 results_list.

(** Lines 81-89 of [detect_cars], the body of the loop: one raw detection
    [(score, label, box)] against the loop's variables. *)
Definition loop_body (raw : float * Z * list float) (acc : bool * list Detection)
  : M CarDetector (bool * list Detection) :=
  let '(score, label_id, box) := raw in
  let '(has_cars, car_detections) := acc in
  let! self := get in
  let! model_ := getattr (model self) "config" in
  let! label_name := getitem (config_id2label model_) label_id in
  if String.eqb label_name "car" then
    ret (true,
         car_detections ++ [ {| label := label_name;
                                confidence := score;
                                bbox := box;
                                bbox_format := "xyxy" |} ])
  else
    ret (has_cars, car_detections).

(** Lines 77-89 of [detect_cars]: the car filter. *)
Definition extract_car_detections (results : Results) : M CarDetector (bool * list Detection) :=
  for_in (zip3 (scores results) (labels results) (boxes results)) loop_body (false, []).

(** [CarDetector.detect_cars]. *)
Definition detect_cars (image_path : string) : M CarDetector (bool * list Detection) :=
  let! found := exists_ image_path in
  if negb found then
    raise (FileNotFoundError ("Image file not found: " +:+ image_path))
  else
    try_except
      (let! image := load_image image_path in
       let! results := run_inference image in
       let! '(has_cars, car_detections) := extract_car_detections results in
       let! _ := log_info ("Detected " +:+ pretty (length car_detections)
                           +:+ " cars in " +:+ image_path) in
       ret (has_cars, car_detections))
      (fun e =>
         let! _ := log_error ("Error processing image " +:+ image_path +:+ ": " +:+ str e) in
         raise e).

(** [CarDetector.detect_car_simple]. *)
Definition detect_car_simple (image_path : string) : M CarDetector bool :=
  let! '(has_cars, _) := detect_cars image_path in
  ret has_cars.

(** [CarDetector.get_model_info]. *)
Definition get_model_info : M CarDetector ModelInfo :=
  let! self := get in
  ret {| info_model_name := model_name self;
         info_confidence_threshold := confidence_threshold self;
         available_labels :=
           match model self with
           | Some m => Some (map snd (config_id2label m))
           | None => None
           end |}.

End CarDetector.
End car_detector.

(** ** src/api.py *)

Module api.
Import Py Lib car_detector.
Local Open Scope py_scope.

Section Api.
Context `{Platform}.

(** The module's global variable. *)
Record Globals : Type := {
  detector : option CarDetector
}.

(** An uploaded file as the handlers use it. *)
Record UploadFile : Type := {
  filename : option string;
  content_type : option string;
  content : bytes
}.

(** What the handlers return. *)
Record RootContent : Type := {
  message : string;
  status : string
}.

Record DetectCarContent : Type := {
  dc_filename : option string;
  has_cars : bool;
  car_count : nat;
  detections : list Detection;
  model_info : string * float
}.

Record DetectCarSimpleContent : Type := {
  dcs_filename : option string;
  car_detected : bool
}.

(** Lines 23-28: the detector is built when the module is imported. *)
Definition init_detector : M Globals unit :=
  try_except
    (let! d := CarDetector_ "facebook/detr-resnet-50" 0.9%float in
     let! _ := put {| detector := Some d |} in
     log_info "Car detector initialized successfully")
    (fun e =>
       let! _ := log_error ("Failed to initialize car detector: " +:+ str e) in
       put {| detector := None |}).

(** A method call [detector.meth(...)] on the object the global names. *)
Definition detector_call {A} (name : string) (meth : M CarDetector A) : M Globals A :=
  fun s =>
    match detector (fst s) with
    | None =>
        (inl (AttributeError ("'NoneType' object has no attribute '" +:+ name +:+ "'")), s)
    | Some d =>
        match meth (d, snd s) with
        | (r, (d', w')) => (r, ({| detector := Some d' |}, w'))
        end
    end.

(** [not detector]. *)
Definition not_ (d : option CarDetector) : bool :=
  match d with
  | Some _ => false
  | None => true
  end.

(** [file.content_type.startswith(prefix)]. *)
Definition content_type_startswith (file : UploadFile) (prefix : string) : M Globals bool :=
  match content_type file with
  | Some ct => ret (String.prefix prefix ct)
  | None => raise (AttributeError "'NoneType' object has no attribute 'startswith'")
  end.

(** Lines 61-64 and 109-112: the upload is written to a new temporary
    file, which stays on disk when the [with] block closes it.  Each of
    the three steps can raise; the file exists from the first step on. *)
Definition save_upload (file : UploadFile) : M Globals string :=
  let! name := perform (fun w =>
                  match tempfile_error (fs w) with
                  | Some msg => (inl (OSError msg), w)
                  | None =>
                      let name := mkstemp (fs w) ".jpg" in
                      (inr name, {| fs := <[name := []]> (fs w);
                                    trace := trace w ++ [NamedTemporaryFile name] |})
                  end) in
  let! content := match upload_read_error (content file) with
                  | Some msg => raise (OSError msg)
                  | None => ret (content file)
                  end in
  let! _ := perform (fun w =>
               match tempfile_write_error (fs w) name content with
               | Some (msg, on_disk) =>
                   (inl (OSError msg),
                    {| fs := <[name := on_disk]> (fs w);
                       trace := trace w ++ [tmp_file_write name content] |})
               | None =>
                   (inr tt, {| fs := <[name := content]> (fs w);
                               trace := trace w ++ [tmp_file_write name content] |})
               end) in
  ret name.

(** The three steps of [save_upload] all succeed from the world [w]. *)
Definition upload_saved (file : UploadFile) (w : World) : Prop :=
  tempfile_error (fs w) = None /\
  upload_read_error (content file) = None /\
  tempfile_write_error (<[mkstemp (fs w) ".jpg" := []]> (fs w))
                       (mkstemp (fs w) ".jpg") (content file) = None.

(** The rendering of a content whose floats, in the order they are
    rendered, are [floats]: the encoder refuses the first one that is not
    finite. *)
Definition json_render {A} (floats : list float) (content : A) : exn + A :=
  match List.find (fun f => negb (PrimFloat.is_finite f)) floats with
  | Some f => inl (ValueError (json_float_error f))
  | None => inr content
  end.

(** [JSONResponse(content=...)]: the content is rendered when the response
    is built. *)
Definition JSONResponse {A} (floats : list float) (content : A) : M Globals A :=
  outcome (json_render floats content).

(** The floats of [detections] as they come in the rendering: for each
    record its confidence, then its box. *)
Definition detection_floats (detections : list Detection) : list float :=
  flat_map (fun d => confidence d :: bbox d) detections.

(** The [finally] blocks. *)
Definition clean_up (tmp_file_path : string) : M Globals unit :=
  let! found := exists_ tmp_file_path in
  if found then unlink tmp_file_path else ret tt.

(** [GET /]. *)
Definition root : M Globals RootContent :=
  ret {| message := "Car Detection API is running"; status := "healthy" |}.

(** [GET /model-info]. *)
Definition get_model_info : M Globals ModelInfo :=
  let! g := get in
  if not_ (detector g) then
    raise (HTTPException 500 "Model not loaded")
  else
    detector_call "get_model_info" car_detector.get_model_info.

(** The [except Exception as e] blocks of the two upload handlers. *)
Definition processing_error {A} (e : exn) : M Globals A :=
  let! _ := log_error ("Error processing image: " +:+ str e) in
  raise (HTTPException 500 ("Error processing image: " +:+ str e)).

(** What the [try]/[except] of an upload handler makes of the outcome of
    its [try] block. *)
Definition wrapped {A} (r : exn + A) : exn + A :=
  match r with
  | inr a => inr a
  | inl e => inl (HTTPException 500 ("Error processing image: " +:+ str e))
  end.

(** The [try] block of [detect_car]. *)
Definition detect_car_try (file : UploadFile) (tmp_file_path : string)
  : M Globals DetectCarContent :=
  let! '(has_cars, detections) :=
     detector_call "detect_cars" (detect_cars tmp_file_path) in
  let! model_name := detector_call "model_name"
                       (let! self := get in ret (model_name self)) in
  let! confidence_threshold := detector_call "confidence_threshold"
                       (let! self := get in ret (confidence_threshold self)) in
  JSONResponse (detection_floats detections ++ [confidence_threshold])
    {| dc_filename := filename file;
       has_cars := has_cars;
       car_count := length detections;
       detections := detections;
       model_info := (model_name, confidence_threshold) |}.

(** [POST /detect-car]. *)
Definition detect_car (file : UploadFile) : M Globals DetectCarContent :=
  let! g := get in
  if not_ (detector g) then
    raise (HTTPException 500 "Model not loaded")
  else
    let! is_image := content_type_startswith file "image/" in
    if negb is_image then
      raise (HTTPException 400 "File must be an image")
    else
      let! tmp_file_path := save_upload file in
      try_finally
        (try_except (detect_car_try file tmp_file_path) processing_error)
        (clean_up tmp_file_path).

(** The [try] block of [detect_car_simple]. *)
Definition detect_car_simple_try (file : UploadFile) (tmp_file_path : string)
  : M Globals DetectCarSimpleContent :=
  let! has_cars :=
     detector_call "detect_car_simple" (car_detector.detect_car_simple tmp_file_path) in
  JSONResponse [] {| dcs_filename := filename file;
                     car_detected := has_cars |}.

(** [POST /detect-car-simple]. *)
Definition detect_car_simple (file : UploadFile) : M Globals DetectCarSimpleContent :=
  let! g := get in
  if not_ (detector g) then
    raise (HTTPException 500 "Model not loaded")
  else
    let! is_image := content_type_startswith file "image/" in
    if negb is_image then
      raise (HTTPException 400 "File must be an image")
    else
      let! tmp_file_path := save_upload file in
      try_finally
        (try_except (detect_car_simple_try file tmp_file_path) processing_error)
        (clean_up tmp_file_path).

(** The application: requests, and what FastAPI makes of a handler's
    outcome. *)
Inductive Request : Type :=
| GET_root
| GET_model_info
| POST_detect_car (file : UploadFile)
| POST_detect_car_simple (file : UploadFile).

Inductive Body : Type :=
| body_root (c : RootContent)
| body_model_info (c : ModelInfo)
| body_detect_car (c : DetectCarContent)
| body_detect_car_simple (c : DetectCarSimpleContent)
| body_detail (detail : string)
| body_internal_server_error.

Record Response : Type := {
  status_code : Z;
  body : Body
}.

(** A returned value is sent with status 200, an [HTTPException] with its
    status and detail, any other exception as a bare 500. *)
Definition respond {A} (wrap : A -> Body) (r : exn + A) : Response :=
  match r with
  | inr a => {| status_code := 200; body := wrap a |}
  | inl (HTTPException code detail) => {| status_code := code; body := body_detail detail |}
  | inl _ => {| status_code := 500; body := body_internal_server_error |}
  end.

Definition served {A} (wrap : A -> Body) (m : M Globals A) (s : Globals * World)
  : Response * (Globals * World) :=
  match m s with
  | (r, s') => (respond wrap r, s')
  end.

Definition handle (req : Request) (s : Globals * World) : Response * (Globals * World) :=
  match req with
  | GET_root => served body_root root s
  | GET_model_info => served body_model_info get_model_info s
  | POST_detect_car file => served body_detect_car (detect_car file) s
  | POST_detect_car_simple file => served body_detect_car_simple (detect_car_simple file) s
  end.

(** The process serving requests one after the other. *)
Fixpoint serve (reqs : list Request) (s : Globals * World)
  : list Response * (Globals * World) :=
  match reqs with
  | [] => ([], s)
  | req :: reqs' =>
      match handle req s with
      | (resp, s') =>
          match serve reqs' s' with
          | (resps, s'') => (resp :: resps, s'')
          end
      end
  end.

End Api.
End api.

(** ** The car filter as the specification words it *)

Module Spec.
Import Py Lib car_detector.

Section Spec.
Context `{Platform}.

(** A raw detection: confidence, label id and bounding box. *)
Definition RawDetection : Type := float * Z * list float.

Definition raw_confidence (raw : RawDetection) : float := fst (fst raw).
Definition raw_label_id (raw : RawDetection) : Z := snd (fst raw).
Definition raw_bbox (raw : RawDetection) : list float := snd raw.

(** The vocabulary has an entry for every label id of the sequence. *)
Definition covers (vocabulary : list (Z * string)) (raws : list RawDetection) : Prop :=
  Forall (fun raw => is_Some (dict_get vocabulary (raw_label_id raw))) raws.

(** The label id resolves to the literal string "car". *)
Definition is_car (vocabulary : list (Z * string)) (raw : RawDetection) : bool :=
  match dict_get vocabulary (raw_label_id raw) with
  | Some name => String.eqb name "car"
  | None => false
  end.

(** The CarDetection made from a raw detection: same confidence and bbox,
    tagged "xyxy". *)
Definition CarDetection_of (raw : RawDetection) : Detection :=
  {| label := "car";
     confidence := raw_confidence raw;
     bbox := raw_bbox raw;
     bbox_format := "xyxy" |}.

(** The Car Filter: the car-labelled raw detections, in input order. *)
Definition car_filter (vocabulary : list (Z * string)) (raws : list RawDetection)
  : list Detection :=
  map CarDetection_of (List.filter (is_car vocabulary) raws).

(** The raw detections of a post-processing result. *)
Definition raw_detections (results : Results) : list RawDetection :=
  zip3 (scores results) (labels results) (boxes results).

End Spec.
End Spec.

(** ** The outcome of an upload handler, read off the outcome of
      [detect_cars] *)

Module ApiSpec.
Import Py Lib car_detector api.

Section ApiSpec.
Context `{Platform}.

(** The outcome of the [try] block of [detect_car] when [detect_cars] on
    the detector [d] ends with [r]: its exception, or the content built
    from what it returned, rendered. *)
Definition detect_car_rendered (file : UploadFile) (d : CarDetector)
    (r : exn + bool * list Detection) : exn + DetectCarContent :=
  match r with
  | inl e => inl e
  | inr (has_cars, detections) =>
      json_render (detection_floats detections ++ [confidence_threshold d])
        {| dc_filename := filename file;
           has_cars := has_cars;
           car_count := length detections;
           detections := detections;
           model_info := (model_name d, confidence_threshold d) |}
  end.

(** The same for [detect_car_simple], whose content has no float. *)
Definition detect_car_simple_rendered (file : UploadFile)
    (r : exn + bool * list Detection) : exn + DetectCarSimpleContent :=
  match r with
  | inl e => inl e
  | inr (has_cars, _) => inr {| dcs_filename := filename file; car_detected := has_cars |}
  end.

(** The line the [except] block logs, if the [try] block raised. *)
Definition error_log {A} (r : exn + A) : list Event :=
  match r with
  | inl e => [logger_error ("Error processing image: " +:+ str e)]
  | inr _ => []
  end.

(** The world in which [detect_cars] runs for an upload saved from [w]. *)
Definition saved_world (file : UploadFile) (w : World) : World :=
  {| fs := <[mkstemp (fs w) ".jpg" := content file]> (fs w);
     trace := trace w ++ [ NamedTemporaryFile (mkstemp (fs w) ".jpg");
                           tmp_file_write (mkstemp (fs w) ".jpg") (content file) ] |}.

End ApiSpec.
End ApiSpec.

(** ** A concrete platform, to run the programs on *)

Module Demo.
Import Py Lib car_detector api.

(** Images are kept as their mode and size; a file decodes when it is not
    empty, to a grayscale image when it starts with the byte 4c. *)
Definition imaging : Imaging := {|
  Image := string * (Z * Z);
  Inputs := string * (Z * Z);
  Outputs := Z * Z;
  Image_decode := fun content =>
    match content with
    | [] => inl (LibraryError "cannot identify image file")
    | Byte.x4c :: _ => inr ("L", (640, 480)%Z)
    | _ => inr ("RGB", (640, 480)%Z)
    end;
  Image_mode := fst;
  Image_size := snd;
  Image_convert := fun image mode => inr (mode, snd image)
|}.
#[local] Existing Instance imaging.

(** The candidates of the demo model, whatever the image: a car, a
    person, a car, a car of low score and a truck. *)
Definition candidates : list (float * Z * list float) :=
  [ (0.95, 2%Z, [100; 100; 200; 200]);
    (0.92, 0%Z, [500; 500; 600; 600]);
    (0.97, 2%Z, [300; 300; 400; 400]);
    (0.5, 2%Z, [10; 10; 20; 20]);
    (0.99, 7%Z, [0; 0; 50; 50]) ]%float.

Definition demo_processor : DetrImageProcessor := {|
  preprocess := fun image => inr image;
  post_process_object_detection := fun outputs target_sizes threshold =>
    let kept := List.filter (fun c => PrimFloat.ltb threshold (fst (fst c))) candidates in
    inr [ {| scores := map (fun c => fst (fst c)) kept;
             labels := map (fun c => snd (fst c)) kept;
             boxes := map snd kept |} ]
|}.

Definition demo_model : DetrForObjectDetection := {|
  forward := fun inputs => inr (snd inputs);
  config_id2label :=
    [ (0, "person"); (1, "bicycle"); (2, "car"); (3, "motorcycle"); (7, "truck") ]%Z
|}.

(** The hub answers for the default model only. *)
Definition platform : Platform := {|
  DetrImageProcessor_from_pretrained := fun name =>
    if String.eqb name "facebook/detr-resnet-50" then inr demo_processor
    else inl (LibraryError "not a valid model identifier");
  DetrForObjectDetection_from_pretrained := fun name =>
    if String.eqb name "facebook/detr-resnet-50" then inr demo_model
    else inl (LibraryError "not a valid model identifier");
  mkstemp := fun files suffix => "/tmp/tmpq1w2e3" +:+ suffix;
  tempfile_error := fun files => None;
  upload_read_error := fun content => None;
  tempfile_write_error := fun files name content => None;
  json_float_error := fun f => "Out of range float values are not JSON compliant"
|}.
#[local] Existing Instance platform.

Definition demo_detector : CarDetector := {|
  model_name := "facebook/detr-resnet-50";
  confidence_threshold := 0.9;
  processor := Some demo_processor;
  model := Some demo_model
|}.

Definition world0 : World := {| fs := {[ "/data/street.jpg" := [Byte.xff; Byte.xd8] ]}; trace := [] |}.

Definition jpeg_upload : UploadFile := {|
  filename := Some "test.jpg";
  content_type := Some "image/jpeg";
  content := [Byte.xff; Byte.xd8; Byte.xff]
|}.

Definition text_upload : UploadFile := {|
  filename := Some "test.txt";
  content_type := Some "text/plain";
  content := [Byte.x54; Byte.x68; Byte.x69; Byte.x73]
|}.

(** What the file of [world0] decodes to. *)
Definition street_image : Image := ("RGB", (640, 480)%Z).

(** An upload that is declared an image and is not one. *)
Definition broken_upload : UploadFile := {|
  filename := Some "empty.png";
  content_type := Some "image/png";
  content := []
|}.

(** A platform on which the hub cannot be reached. *)
Definition offline : Platform := {|
  DetrImageProcessor_from_pretrained := fun name =>
    inl (LibraryError "We couldn't connect to 'https://huggingface.co'");
  DetrForObjectDetection_from_pretrained := fun name =>
    inl (LibraryError "We couldn't connect to 'https://huggingface.co'");
  mkstemp := fun files suffix => "/tmp/tmpq1w2e3" +:+ suffix;
  tempfile_error := fun files => None;
  upload_read_error := fun content => None;
  tempfile_write_error := fun files name content => None;
  json_float_error := fun f => "Out of range float values are not JSON compliant"
|}.

(** A model whose vocabulary has no entry for the label id 7, and a
    detector built on it. *)
Definition small_model : DetrForObjectDetection := {|
  forward := fun inputs => inr (snd inputs);
  config_id2label := [ (0, "person"); (2, "car") ]%Z
|}.

Definition small_detector : CarDetector := {|
  model_name := "facebook/detr-resnet-50";
  confidence_threshold := 0.9;
  processor := Some demo_processor;
  model := Some small_model
|}.

(** A detector whose threshold no candidate passes. *)
Definition strict_detector : CarDetector := {|
  model_name := "facebook/detr-resnet-50";
  confidence_threshold := 0.995;
  processor := Some demo_processor;
  model := Some demo_model
|}.

(** A world with a grayscale picture and a file that is no picture. *)
Definition world1 : World := {|
  fs := {[ "/data/gray.jpg" := [Byte.x4c; Byte.x00]; "/data/notes.txt" := [] ]};
  trace := []
|}.

(** A platform on which the processor is fetched and the model is not. *)
Definition half_platform : Platform := {|
  DetrImageProcessor_from_pretrained := fun name => inr demo_processor;
  DetrForObjectDetection_from_pretrained := fun name =>
    inl (LibraryError "model.safetensors not found");
  mkstemp := fun files suffix => "/tmp/tmpq1w2e3" +:+ suffix;
  tempfile_error := fun files => None;
  upload_read_error := fun content => None;
  tempfile_write_error := fun files name content => None;
  json_float_error := fun f => "Out of range float values are not JSON compliant"
|}.

(** A processor whose post-processing lets every candidate through,
    whatever the threshold, and a detector built on it. *)
Definition lenient_processor : DetrImageProcessor := {|
  preprocess := fun image => inr image;
  post_process_object_detection := fun outputs target_sizes threshold =>
    inr [ {| scores := map (fun c => fst (fst c)) candidates;
             labels := map (fun c => snd (fst c)) candidates;
             boxes := map snd candidates |} ]
|}.

Definition lenient_detector : CarDetector := {|
  model_name := "facebook/detr-resnet-50";
  confidence_threshold := 0.9;
  processor := Some lenient_processor;
  model := Some demo_model
|}.

(** A processor that reports one car whose box is not finite, and a
    detector built on it. *)
Definition glare_processor : DetrImageProcessor := {|
  preprocess := fun image => inr image;
  post_process_object_detection := fun outputs target_sizes threshold =>
    inr [ {| scores := [0.99%float];
             labels := [2%Z];
             boxes := [[0%float; 0%float; PrimFloat.infinity; PrimFloat.infinity]] |} ]
|}.

Definition glare_detector : CarDetector := {|
  model_name := "facebook/detr-resnet-50";
  confidence_threshold := 0.9;
  processor := Some glare_processor;
  model := Some demo_model
|}.

(** A platform on which the disk is full: the temporary file is created,
    and writing the upload to it fails and leaves it empty. *)
Definition full_disk : Platform := {|
  DetrImageProcessor_from_pretrained := fun name => inr demo_processor;
  DetrForObjectDetection_from_pretrained := fun name => inr demo_model;
  mkstemp := fun files suffix => "/tmp/tmpq1w2e3" +:+ suffix;
  tempfile_error := fun files => None;
  upload_read_error := fun content => None;
  tempfile_write_error := fun files name content =>
    Some ("[Errno 28] No space left on device", []);
  json_float_error := fun f => "Out of range float values are not JSON compliant"
|}.

(** What POST /detect-car returns for [jpeg_upload] on the demo detector. *)
Definition jpeg_content : DetectCarContent := {|
  dc_filename := Some "test.jpg";
  has_cars := true;
  car_count := 2;
  detections :=
    [ {| label := "car"; confidence := 0.95; bbox := [100; 100; 200; 200]%float;
         bbox_format := "xyxy" |};
      {| label := "car"; confidence := 0.97; bbox := [300; 300; 400; 400]%float;
         bbox_format := "xyxy" |} ];
  model_info := ("facebook/detr-resnet-50", 0.9%float)
|}.

(** An upload that declares no content type. *)
Definition untyped_upload : UploadFile := {|
  filename := Some "blob";
  content_type := None;
  content := [Byte.xff; Byte.xd8]
|}.

End Demo.

(** ** Facts about the runtime *)

Section RuntimeFacts.
Import Py.
Context {X : Type}.

Lemma bind_inr {A B} (m : M X A) (k : A -> M X B) s a s1 :
  m s = (inr a, s1) -> bind m k s = k a s1.
Proof. intros Hm. unfold bind. by rewrite Hm. Qed.

Lemma bind_inl {A B} (m : M X A) (k : A -> M X B) s e s1 :
  m s = (inl e, s1) -> bind m k s = (inl e, s1).
Proof. intros Hm. unfold bind. by rewrite Hm. Qed.

Lemma bind_inr_inv {A B} (m : M X A) (k : A -> M X B) s b s' :
  bind m k s = (inr b, s') ->
  exists a s1, m s = (inr a, s1) /\ k a s1 = (inr b, s').
Proof.
  unfold bind. destruct (m s) as [[e|a] s1]; [done|]. intros Hk. by exists a, s1.
Qed.

Lemma try_except_inr {A} (body : M X A) handler s a s1 :
  body s = (inr a, s1) -> try_except body handler s = (inr a, s1).
Proof. intros Hb. unfold try_except. by rewrite Hb. Qed.

Lemma try_except_inl {A} (body : M X A) handler s e s1 :
  body s = (inl e, s1) -> try_except body handler s = handler e s1.
Proof. intros Hb. unfold try_except. by rewrite Hb. Qed.

Lemma exists_run path (x : X) w :
  exists_ path (x, w) =
    (inr (bool_decide (is_Some (fs w !! path))), (x, emit (os_path_exists path) w)).
Proof. reflexivity. Qed.

Lemma tell_run ev (x : X) w :
  tell ev (x, w) = (inr tt, (x, emit ev w)).
Proof. reflexivity. Qed.

Lemma call_run {A} ev (r : exn + A) (x : X) w :
  call ev r (x, w) = (r, (x, emit ev w)).
Proof. unfold call, bind, outcome. simpl. by destruct r. Qed.

Lemma unlink_present path (x : X) w content :
  fs w !! path = Some content ->
  unlink path (x, w) =
    (inr tt, (x, {| fs := delete path (fs w); trace := trace w ++ [os_unlink path] |})).
Proof. intros Hp. unfold unlink, bind, tell, perform. simpl. by rewrite Hp. Qed.

Lemma reads_refl (s : X * World) : reads s s.
Proof. repeat split. exists []. by rewrite app_nil_r. Qed.

Lemma reads_trans (s1 s2 s3 : X * World) : reads s1 s2 -> reads s2 s3 -> reads s1 s3.
Proof.
  intros (Hx1 & Hf1 & evs1 & Ht1) (Hx2 & Hf2 & evs2 & Ht2).
  split; [congruence|]. split; [congruence|].
  exists (evs1 ++ evs2). rewrite Ht2, Ht1. by rewrite app_assoc.
Qed.

Lemma read_only_ret {A} (a : A) : read_only (@ret X A a).
Proof. intros s. apply reads_refl. Qed.

Lemma read_only_raise {A} e : read_only (@raise X A e).
Proof. intros s. apply reads_refl. Qed.

Lemma read_only_get : read_only (@get X).
Proof. intros s. apply reads_refl. Qed.

Lemma read_only_tell ev : read_only (@tell X ev).
Proof. intros [x w]. repeat split. by exists [ev]. Qed.

Lemma read_only_outcome {A} (r : exn + A) : read_only (@outcome X A r).
Proof. destruct r; [apply read_only_raise | apply read_only_ret]. Qed.

Lemma read_only_bind {A B} (m : M X A) (k : A -> M X B) :
  read_only m -> (forall a, read_only (k a)) -> read_only (bind m k).
Proof.
  intros Hm Hk s. unfold bind. specialize (Hm s).
  destruct (m s) as [[e|a] s1]; simpl in *; [done|].
  eapply reads_trans; [exact Hm | apply Hk].
Qed.

Lemma read_only_try_except {A} (body : M X A) handler :
  read_only body -> (forall e, read_only (handler e)) -> read_only (try_except body handler).
Proof.
  intros Hb Hh s. unfold try_except. specialize (Hb s).
  destruct (body s) as [[e|a] s1]; simpl in *; [|done].
  eapply reads_trans; [exact Hb | apply Hh].
Qed.

Lemma read_only_call {A} ev (r : exn + A) : read_only (@call X A ev r).
Proof.
  apply read_only_bind; [apply read_only_tell | intros _; apply read_only_outcome].
Qed.

Lemma read_only_perform {A} (f : World -> exn + A) :
  read_only (@perform X A (fun w => (f w, w))).
Proof. intros [x w]. apply reads_refl. Qed.

Lemma read_only_exists_ path : read_only (@exists_ X path).
Proof.
  apply read_only_bind; [apply read_only_tell | intros _].
  apply (read_only_perform (fun w => inr (bool_decide (is_Some (fs w !! path))))).
Qed.

Lemma read_only_getitem {V} (d : list (Z * V)) k : read_only (@getitem X V d k).
Proof. unfold getitem. destruct (dict_get d k); [apply read_only_ret | apply read_only_raise]. Qed.

Lemma read_only_getitem0 {A} (l : list A) : read_only (@getitem0 X A l).
Proof. destruct l; [apply read_only_raise | apply read_only_ret]. Qed.

Lemma read_only_for_in {A Acc} (xs : list A) (body : A -> Acc -> M X Acc) acc :
  (forall x acc', read_only (body x acc')) -> read_only (for_in xs body acc).
Proof.
  intros Hb. revert acc. induction xs as [|x xs IH]; intros acc; simpl.
  - apply read_only_ret.
  - apply read_only_bind; [apply Hb | intros acc'; apply IH].
Qed.

End RuntimeFacts.

(** ** Facts about the detector *)

Section DetectorFacts.
Import Py Lib car_detector Spec.
Context `{Platform}.
Local Open Scope py_scope.

(** One turn of the loop leaves the object and the world as they are. *)
Lemma loop_body_state raw acc s :
  snd (loop_body raw acc s) = s.
Proof.
  destruct raw as [[score label_id] box], acc as [has_cars car_detections], s as [self w].
  unfold loop_body, bind, get, getattr, getitem, ret, raise; simpl.
  destruct (model self) as [m|]; simpl; [|done].
  destruct (dict_get (config_id2label m) label_id) as [name|]; simpl; [|done].
  by destruct (String.eqb name "car").
Qed.

Lemma for_in_loop_body_state raws acc s :
  snd (for_in raws loop_body acc s) = s.
Proof.
  revert acc. induction raws as [|raw raws IH]; intros acc; simpl; [done|].
  unfold bind. pose proof (loop_body_state raw acc s) as Hs.
  destruct (loop_body raw acc s) as [[e|acc'] s']; simpl in Hs; subst s'; [done|].
  apply IH.
Qed.

(** One turn of the loop when the label id is in the vocabulary. *)
Lemma loop_body_covered self w m raw has_cars car_detections name :
  model self = Some m ->
  dict_get (config_id2label m) (raw_label_id raw) = Some name ->
  loop_body raw (has_cars, car_detections) (self, w) =
    (inr (if String.eqb name "car"
          then (true, car_detections ++ [CarDetection_of raw])
          else (has_cars, car_detections)),
     (self, w)).
Proof.
  destruct raw as [[score label_id] box]. unfold raw_label_id; simpl.
  intros Hm Hname.
  unfold loop_body, bind, get, getattr, getitem, ret; simpl.
  rewrite Hm; simpl. rewrite Hname; simpl.
  destruct (String.eqb name "car") eqn:Hcar; [|done].
  apply String.eqb_eq in Hcar. subst name. done.
Qed.

(** The loop over a covered sequence: it returns, with the flag raised by
    the first car and the cars appended in order. *)
Lemma for_in_loop_body_covered self w m raws has_cars car_detections :
  model self = Some m ->
  covers (config_id2label m) raws ->
  for_in raws loop_body (has_cars, car_detections) (self, w) =
    (inr (has_cars || existsb (is_car (config_id2label m)) raws,
          car_detections ++ car_filter (config_id2label m) raws),
     (self, w)).
Proof.
  intros Hm Hcov. revert has_cars car_detections.
  induction Hcov as [|raw raws [name Hname] _ IH]; intros has_cars car_detections.
  - simpl. unfold ret, car_filter. simpl. by rewrite orb_false_r, app_nil_r.
  - simpl. unfold bind.
    rewrite (loop_body_covered _ _ _ _ _ _ _ Hm Hname).
    unfold car_filter, is_car at 1 3. simpl. rewrite Hname.
    destruct (String.eqb name "car"); simpl.
    + rewrite IH. unfold car_filter. by rewrite orb_true_r, <- app_assoc.
    + by rewrite IH.
Qed.

(** Nothing in the detector's inference methods assigns an attribute or
    writes a file. *)
Lemma read_only_Image_open {X} image_path : read_only (Image_open (X:=X) image_path).
Proof.
  apply read_only_bind; [apply read_only_tell | intros _].
  intros [x w]. unfold perform. simpl.
  destruct (fs w !! image_path); apply reads_refl.
Qed.

Lemma read_only_load_image {X} image_path : read_only (load_image (X:=X) image_path).
Proof.
  apply read_only_bind; [apply read_only_Image_open | intros image].
  destruct (negb _); [apply read_only_call | apply read_only_ret].
Qed.

Lemma read_only_callable {A} (o : option A) : read_only (callable o).
Proof. destruct o; [apply read_only_ret | apply read_only_raise]. Qed.

Lemma read_only_getattr {A} (o : option A) name : read_only (getattr o name).
Proof. destruct o; [apply read_only_ret | apply read_only_raise]. Qed.

Lemma read_only_run_inference image : read_only (run_inference image).
Proof.
  unfold run_inference.
  repeat first
    [ apply read_only_get | apply read_only_callable | apply read_only_call
    | apply read_only_getitem0
    | apply read_only_bind; [|intros ?]
    | progress cbv zeta ].
Qed.

Lemma read_only_loop_body raw acc : read_only (loop_body raw acc).
Proof.
  destruct raw as [[score label_id] box], acc as [has_cars car_detections].
  unfold loop_body.
  repeat first
    [ apply read_only_get | apply read_only_getattr | apply read_only_getitem
    | apply read_only_bind; [|intros ?] ].
  destruct (String.eqb _ _); apply read_only_ret.
Qed.

Lemma read_only_extract_car_detections results :
  read_only (extract_car_detections results).
Proof. apply read_only_for_in. apply read_only_loop_body. Qed.

Lemma read_only_detect_cars image_path : read_only (detect_cars image_path).
Proof.
  unfold detect_cars.
  apply read_only_bind; [apply read_only_exists_ | intros found].
  destruct (negb found); [apply read_only_raise|].
  apply read_only_try_except.
  - apply read_only_bind; [apply read_only_load_image | intros image].
    apply read_only_bind; [apply read_only_run_inference | intros results].
    apply read_only_bind; [apply read_only_extract_car_detections | intros [b ds]].
    apply read_only_bind; [apply read_only_tell | intros _; apply read_only_ret].
  - intros e. apply read_only_bind; [apply read_only_tell | intros _; apply read_only_raise].
Qed.

Lemma read_only_detect_car_simple image_path :
  read_only (car_detector.detect_car_simple image_path).
Proof.
  apply read_only_bind; [apply read_only_detect_cars | intros [b ds]; apply read_only_ret].
Qed.

(** What the adapter step returned, it got from the post-processing called
    with the detector's threshold. *)
Lemma run_inference_inv image self w results s' :
  run_inference image (self, w) = (inr results, s') ->
  exists processor_ model_ inputs outputs rest,
    processor self = Some processor_ /\ model self = Some model_ /\
    preprocess processor_ image = inr inputs /\
    forward model_ inputs = inr outputs /\
    post_process_object_detection processor_ outputs
      [ (snd (Image_size image), fst (Image_size image)) ]
      (confidence_threshold self) = inr (results :: rest) /\
    s' = (self, {| fs := fs w;
                   trace := trace w ++
                     [ processor_call; model_call;
                       post_process_object_detection_call
                         [ (snd (Image_size image), fst (Image_size image)) ]
                         (confidence_threshold self) ] |}).
Proof.
  unfold run_inference. unfold bind at 1. simpl.
  destruct (processor self) as [p|] eqn:Hp; [|done].
  unfold bind at 1. simpl. unfold bind at 1. rewrite call_run.
  destruct (preprocess p image) as [e|inputs] eqn:Hpre; [done|].
  unfold bind at 1.
  destruct (model self) as [m|] eqn:Hm; [|done]. simpl.
  unfold bind at 1. rewrite call_run.
  destruct (forward m inputs) as [e|outputs] eqn:Hfwd; [done|].
  unfold bind at 1. rewrite call_run.
  destruct (post_process_object_detection p outputs _ _) as [e|[|r rest]] eqn:Hpost;
    [done|done|].
  simpl. intros [= <- <-].
  exists p, m, inputs, outputs, rest. repeat split; try done.
  unfold emit; simpl. by rewrite <- !app_assoc.
Qed.

(** When the loop returns, every label id it met was in the vocabulary. *)
Lemma for_in_loop_body_returns self w m raws acc r s' :
  model self = Some m ->
  for_in raws loop_body acc (self, w) = (inr r, s') ->
  covers (config_id2label m) raws.
Proof.
  intros Hm. revert acc.
  induction raws as [|raw raws IH]; intros [has_cars car_detections] Hrun;
    [by constructor|].
  simpl in Hrun. apply bind_inr_inv in Hrun as (acc' & s1 & Hbody & Hrest).
  destruct (dict_get (config_id2label m) (raw_label_id raw)) as [name|] eqn:Hname.
  - rewrite (loop_body_covered _ _ _ _ _ _ _ Hm Hname) in Hbody.
    injection Hbody as <- <-.
    constructor; [by exists name | by eapply IH].
  - exfalso. destruct raw as [[score label_id] box]. unfold raw_label_id in Hname.
    simpl in Hname. revert Hbody.
    unfold loop_body, bind, get, getattr, getitem, raise; simpl.
    rewrite Hm; simpl. by rewrite Hname.
Qed.

(** The car filter on the results of the adapter: under a covering
    vocabulary it returns what the specification's filter gives. *)
Lemma extract_car_detections_covered self w m results :
  model self = Some m ->
  covers (config_id2label m) (raw_detections results) ->
  extract_car_detections results (self, w) =
    (inr (existsb (is_car (config_id2label m)) (raw_detections results),
          car_filter (config_id2label m) (raw_detections results)),
     (self, w)).
Proof.
  intros Hm Hcov. unfold extract_car_detections.
  by rewrite (for_in_loop_body_covered _ _ _ _ false [] Hm Hcov).
Qed.

(** The run of [detect_cars] on a file that is there, stage by stage. *)
Lemma detect_cars_stages self w image_path image s1 results s2 r s3 :
  is_Some (fs w !! image_path) ->
  load_image image_path (self, emit (os_path_exists image_path) w) = (inr image, s1) ->
  run_inference image s1 = (inr results, s2) ->
  extract_car_detections results s2 = (inr r, s3) ->
  detect_cars image_path (self, w) =
    (inr r,
     (fst s3, emit (logger_info ("Detected " +:+ pretty (length (snd r))
                                 +:+ " cars in " +:+ image_path)) (snd s3))).
Proof.
  intros Hsome Hload Hrun Hext. unfold detect_cars. unfold bind at 1.
  rewrite exists_run. rewrite bool_decide_eq_true_2 by done. simpl.
  apply try_except_inr.
  rewrite (bind_inr _ _ _ _ _ Hload), (bind_inr _ _ _ _ _ Hrun), (bind_inr _ _ _ _ _ Hext).
  destruct r as [b ds], s3 as [self3 w3]. reflexivity.
Qed.

(** Whatever [detect_cars] returns went through the three stages. *)
Lemma detect_cars_inv self w image_path r s' :
  detect_cars image_path (self, w) = (inr r, s') ->
  exists image s1 results s2 s3,
    is_Some (fs w !! image_path) /\
    load_image image_path (self, emit (os_path_exists image_path) w) = (inr image, s1) /\
    run_inference image s1 = (inr results, s2) /\
    extract_car_detections results s2 = (inr r, s3) /\
    s' = (fst s3, emit (logger_info ("Detected " +:+ pretty (length (snd r))
                                     +:+ " cars in " +:+ image_path)) (snd s3)).
Proof.
  unfold detect_cars. unfold bind at 1. rewrite exists_run.
  destruct (bool_decide (is_Some (fs w !! image_path))) eqn:Hex; simpl; [|done].
  apply bool_decide_eq_true_1 in Hex.
  unfold try_except.
  destruct (load_image image_path _) as [[e|image] s1] eqn:Hload;
    [by rewrite (bind_inl _ _ _ _ _ Hload)|].
  rewrite (bind_inr _ _ _ _ _ Hload).
  destruct (run_inference image s1) as [[e|results] s2] eqn:Hrun;
    [by rewrite (bind_inl _ _ _ _ _ Hrun)|].
  rewrite (bind_inr _ _ _ _ _ Hrun).
  destruct (extract_car_detections results s2) as [[e|[b ds]] [self3 w3]] eqn:Hext;
    [by rewrite (bind_inl _ _ _ _ _ Hext)|].
  rewrite (bind_inr _ _ _ _ _ Hext). simpl.
  intros [= <- <-].
  by exists image, s1, results, s2, (self3, w3).
Qed.

(** What [detect_cars] returns is the specification's filter applied to
    the raw detections the post-processing gave for the detector's
    threshold. *)
Lemma detect_cars_returns_spec self w image_path has_cars car_detections s' :
  detect_cars image_path (self, w) = (inr (has_cars, car_detections), s') ->
  exists processor_ model_ image inputs outputs results rest,
    processor self = Some processor_ /\ model self = Some model_ /\
    preprocess processor_ image = inr inputs /\
    forward model_ inputs = inr outputs /\
    post_process_object_detection processor_ outputs
      [ (snd (Image_size image), fst (Image_size image)) ]
      (confidence_threshold self) = inr (results :: rest) /\
    covers (config_id2label model_) (raw_detections results) /\
    has_cars = existsb (is_car (config_id2label model_)) (raw_detections results) /\
    car_detections = car_filter (config_id2label model_) (raw_detections results).
Proof.
  intros Hrun.
  apply detect_cars_inv in Hrun as (image & s1 & results & s2 & s3 & _ & Hload & Hinf & Hext & _).
  pose proof (read_only_load_image (X:=CarDetector) image_path
                (self, emit (os_path_exists image_path) w)) as (Hself1 & _).
  rewrite Hload in Hself1. simpl in Hself1. destruct s1 as [self1 w1].
  simpl in Hself1. subst self1.
  apply run_inference_inv in Hinf
    as (p & m & inputs & outputs & rest & Hp & Hm & Hpre & Hfwd & Hpost & ->).
  pose proof (for_in_loop_body_returns _ _ _ _ _ _ _ Hm Hext) as Hcov.
  rewrite (extract_car_detections_covered _ _ _ _ Hm Hcov) in Hext.
  injection Hext as <- <- _.
  by exists p, m, image, inputs, outputs, results, rest.
Qed.

(** When the stages before the filter succeed and the vocabulary covers
    the label ids, [detect_cars] returns the specification's filter of the
    raw detections, and the detector is as it was. *)
Lemma detect_cars_complete self w image_path image s1 results s2 model_ :
  is_Some (fs w !! image_path) ->
  load_image image_path (self, emit (os_path_exists image_path) w) = (inr image, s1) ->
  run_inference image s1 = (inr results, s2) ->
  model self = Some model_ ->
  covers (config_id2label model_) (raw_detections results) ->
  detect_cars image_path (self, w) =
    (inr (existsb (is_car (config_id2label model_)) (raw_detections results),
          car_filter (config_id2label model_) (raw_detections results)),
     (self,
      emit (logger_info
              ("Detected "
               +:+ pretty (length (car_filter (config_id2label model_) (raw_detections results)))
               +:+ " cars in " +:+ image_path)) (snd s2))).
Proof.
  intros Hsome Hload Hinf Hm Hcov.
  pose proof (read_only_load_image (X:=CarDetector) image_path
                (self, emit (os_path_exists image_path) w)) as (Hself1 & _).
  rewrite Hload in Hself1. simpl in Hself1.
  pose proof (read_only_run_inference image s1) as (Hself2 & _).
  rewrite Hinf in Hself2. simpl in Hself2.
  destruct s2 as [self2 w2]. simpl in Hself2. rewrite Hself1 in Hself2. subst self2.
  rewrite (detect_cars_stages _ _ _ _ _ _ _ _ _ Hsome Hload Hinf
             (extract_car_detections_covered _ w2 _ _ Hm Hcov)).
  reflexivity.
Qed.

Lemma existsb_filter_nil {A} (f : A -> bool) (l : list A) :
  existsb f l = true <-> List.filter f l <> [].
Proof.
  induction l as [|x l IH]; simpl; [split; [discriminate | congruence]|].
  destruct (f x); simpl; [split; [discriminate | reflexivity] | exact IH].
Qed.

Lemma is_car_exact vocabulary raw :
  is_car vocabulary raw = true <-> dict_get vocabulary (raw_label_id raw) = Some "car".
Proof.
  unfold is_car. destruct (dict_get vocabulary (raw_label_id raw)) as [name|].
  - rewrite String.eqb_eq. split; [by intros -> | by intros [= ->]].
  - split; discriminate.
Qed.

Lemma car_filter_length vocabulary raws :
  length (car_filter vocabulary raws) <= length raws.
Proof. unfold car_filter. rewrite length_map. apply List.filter_length_le. Qed.

Lemma car_filter_from_cars vocabulary raws d :
  In d (car_filter vocabulary raws) ->
  exists raw, In raw raws /\ dict_get vocabulary (raw_label_id raw) = Some "car" /\
              d = CarDetection_of raw.
Proof.
  unfold car_filter. rewrite in_map_iff. intros (raw & <- & Hin).
  apply List.filter_In in Hin as [Hin Hcar]. apply is_car_exact in Hcar.
  by exists raw.
Qed.

(** C2: for every sequence of raw detections the adapter gives and every
    vocabulary covering its label ids, the car filter of [detect_cars]
    returns a list no longer than the input, every record of which has the
    label "car" exactly and comes from a raw detection whose label id
    resolves to the string "car" itself. *)
Theorem detect_cars_filter_bounded_and_car
    self w image_path image s1 results s2 model_ :
  is_Some (fs w !! image_path) ->
  load_image image_path (self, emit (os_path_exists image_path) w) = (inr image, s1) ->
  run_inference image s1 = (inr results, s2) ->
  model self = Some model_ ->
  covers (config_id2label model_) (raw_detections results) ->
  exists has_cars car_detections s',
    detect_cars image_path (self, w) = (inr (has_cars, car_detections), s') /\
    length car_detections <= length (raw_detections results) /\
    Forall (fun d => label d = "car") car_detections /\
    Forall (fun d => exists raw,
                In raw (raw_detections results) /\
                dict_get (config_id2label model_) (raw_label_id raw) = Some "car" /\
                d = CarDetection_of raw) car_detections.
Proof.
  intros Hsome Hload Hinf Hm Hcov.
  eexists _, _, _. split; [by eapply detect_cars_complete|].
  split; [apply car_filter_length|].
  split; apply List.Forall_forall; intros d Hd.
  - apply car_filter_from_cars in Hd as (raw & _ & _ & ->). done.
  - by apply car_filter_from_cars.
Qed.

(** C3: the list [detect_cars] returns is exactly the car-labelled raw
    detections in their input order, nothing re-sorted and nothing
    dropped as a duplicate; each record has the confidence and the box of
    its raw detection and the format "xyxy". *)
Theorem detect_cars_keeps_cars_in_order
    self w image_path image s1 results s2 model_ :
  is_Some (fs w !! image_path) ->
  load_image image_path (self, emit (os_path_exists image_path) w) = (inr image, s1) ->
  run_inference image s1 = (inr results, s2) ->
  model self = Some model_ ->
  covers (config_id2label model_) (raw_detections results) ->
  exists has_cars s',
    detect_cars image_path (self, w) =
      (inr (has_cars,
            map (fun raw => {| label := "car";
                               confidence := raw_confidence raw;
                               bbox := raw_bbox raw;
                               bbox_format := "xyxy" |})
                (List.filter
                   (fun raw => bool_decide
                      (dict_get (config_id2label model_) (raw_label_id raw) = Some "car"))
                   (raw_detections results))),
       s').
Proof.
  intros Hsome Hload Hinf Hm Hcov.
  eexists _, _.
  rewrite (detect_cars_complete _ _ _ _ _ _ _ _ Hsome Hload Hinf Hm Hcov).
  unfold car_filter. do 3 f_equal.
  change CarDetection_of with
    (fun raw => {| label := "car"; confidence := raw_confidence raw;
                   bbox := raw_bbox raw; bbox_format := "xyxy" |}).
  f_equal. apply List.filter_ext. intros raw.
  destruct (is_car (config_id2label model_) raw) eqn:Hcar.
  - symmetry. apply bool_decide_eq_true_2. by apply is_car_exact.
  - symmetry. apply bool_decide_eq_false_2. rewrite <- is_car_exact. congruence.
Qed.

(** C4: whenever [detect_cars] returns, its flag is true exactly when the
    list it returns is not empty. *)
Theorem detect_cars_flag_iff_nonempty self w image_path has_cars car_detections s' :
  detect_cars image_path (self, w) = (inr (has_cars, car_detections), s') ->
  has_cars = true <-> car_detections <> [].
Proof.
  intros Hrun.
  apply detect_cars_returns_spec in Hrun
    as (p & m & image & inputs & outputs & results & rest & _ & _ & _ & _ & _ & _ & -> & ->).
  rewrite existsb_filter_nil. unfold car_filter.
  destruct (List.filter _ _); simpl; split; congruence.
Qed.

(** C6: the confidence threshold is used in the adapter step and nowhere
    else.  In a run of [detect_cars] the results of the adapter step are
    those of [post_process_object_detection] called with
    [confidence_threshold], the one post-processing call of the run; and
    the list [detect_cars] returns is made of the raw detections whose
    label id resolves to "car", all of them and no other, whatever their
    confidence is and however it compares with the threshold. *)
Theorem threshold_in_adapter_label_in_filter
    self w image_path image s1 results s2 model_ :
  is_Some (fs w !! image_path) ->
  load_image image_path (self, emit (os_path_exists image_path) w) = (inr image, s1) ->
  run_inference image s1 = (inr results, s2) ->
  model self = Some model_ ->
  covers (config_id2label model_) (raw_detections results) ->
  (exists processor_ outputs rest,
     processor self = Some processor_ /\
     post_process_object_detection processor_ outputs
       [ (snd (Image_size image), fst (Image_size image)) ]
       (confidence_threshold self) = inr (results :: rest) /\
     trace (snd s2) =
       trace (snd s1) ++ [ processor_call; model_call;
                           post_process_object_detection_call
                             [ (snd (Image_size image), fst (Image_size image)) ]
                             (confidence_threshold self) ]) /\
  exists has_cars car_detections s',
    detect_cars image_path (self, w) = (inr (has_cars, car_detections), s') /\
    car_detections =
      map (fun raw => {| label := "car";
                         confidence := raw_confidence raw;
                         bbox := raw_bbox raw;
                         bbox_format := "xyxy" |})
          (List.filter
             (fun raw => bool_decide
                (dict_get (config_id2label model_) (raw_label_id raw) = Some "car"))
             (raw_detections results)) /\
    (forall raw,
       In raw (raw_detections results) ->
       dict_get (config_id2label model_) (raw_label_id raw) = Some "car" ->
       In {| label := "car"; confidence := raw_confidence raw;
             bbox := raw_bbox raw; bbox_format := "xyxy" |} car_detections) /\
    (forall d,
       In d car_detections ->
       exists raw,
         In raw (raw_detections results) /\
         dict_get (config_id2label model_) (raw_label_id raw) = Some "car" /\
         d = {| label := "car"; confidence := raw_confidence raw;
                bbox := raw_bbox raw; bbox_format := "xyxy" |}).
Proof.
  intros Hsome Hload Hinf Hm Hcov. split.
  - pose proof (read_only_load_image (X:=CarDetector) image_path
                  (self, emit (os_path_exists image_path) w)) as (Hself1 & _).
    rewrite Hload in Hself1. destruct s1 as [self1 w1]. simpl in Hself1. subst self1.
    apply run_inference_inv in Hinf
      as (p & m & inputs & outputs & rest & Hp & _ & _ & _ & Hpost & ->).
    by exists p, outputs, rest.
  - eexists _, _, _.
    split; [by eapply detect_cars_complete|].
    split; [|split].
    + unfold car_filter.
      change CarDetection_of with
        (fun raw => {| label := "car"; confidence := raw_confidence raw;
                       bbox := raw_bbox raw; bbox_format := "xyxy" |}).
      f_equal. apply List.filter_ext. intros raw.
      destruct (is_car (config_id2label model_) raw) eqn:Hcar.
      * symmetry. apply bool_decide_eq_true_2. by apply is_car_exact.
      * symmetry. apply bool_decide_eq_false_2. rewrite <- is_car_exact. congruence.
    + intros raw Hin Hcar. unfold car_filter.
      apply (in_map CarDetection_of). apply List.filter_In. split; [done|].
      by apply is_car_exact.
    + intros d Hd. by apply car_filter_from_cars.
Qed.

(** In the detector, [detect_car_simple] returns the first component of
    what [detect_cars] returns for the path, raises what it raises, and
    leaves the same state behind. *)
Lemma detect_car_simple_is_fst image_path s :
  car_detector.detect_car_simple image_path s =
    (match fst (detect_cars image_path s) with
     | inl e => inl e
     | inr (has_cars, _) => inr has_cars
     end,
     snd (detect_cars image_path s)).
Proof.
  unfold car_detector.detect_car_simple, bind.
  by destruct (detect_cars image_path s) as [[e|[has_cars car_detections]] s'].
Qed.

(** C10: on a path that is not on the filesystem [detect_cars] raises
    [FileNotFoundError] after the existence test alone: the record of calls
    grows by that test only (no image is opened, no model is run, nothing
    is filtered or logged), and the detector and the files are as before. *)
Theorem detect_cars_missing_file self w image_path :
  fs w !! image_path = None ->
  detect_cars image_path (self, w) =
    (inl (FileNotFoundError ("Image file not found: " +:+ image_path)),
     (self, {| fs := fs w; trace := trace w ++ [os_path_exists image_path] |})).
Proof.
  intros Hnone. unfold detect_cars, bind. rewrite exists_run.
  rewrite bool_decide_eq_false_2; [done|].
  rewrite Hnone. by intros [? ?].
Qed.

End DetectorFacts.

(** ** Facts about the handlers *)

Section ApiFacts.
Import Py Lib car_detector api Spec ApiSpec.
Context `{Platform}.
Local Open Scope py_scope.

(** The state a handler finds after the upload has been written to the
    temporary file. *)
Lemma save_upload_run file g w :
  upload_saved file w ->
  save_upload file (g, w) =
    (inr (mkstemp (fs w) ".jpg"),
     (g, {| fs := <[mkstemp (fs w) ".jpg" := content file]> (fs w);
            trace := trace w ++ [ NamedTemporaryFile (mkstemp (fs w) ".jpg");
                                  tmp_file_write (mkstemp (fs w) ".jpg") (content file) ] |})).
Proof.
  intros (Hcreate & Hread & Hwrite).
  unfold save_upload, bind, perform, ret. simpl. rewrite Hcreate. simpl.
  rewrite Hread. simpl. rewrite Hwrite. simpl.
  by rewrite insert_insert_eq, <- app_assoc.
Qed.

(** Saving an upload either goes through or raises an [OSError]; the
    global is not touched. *)
Lemma save_upload_cases file g w :
  upload_saved file w \/
  exists msg w', save_upload file (g, w) = (inl (OSError msg), (g, w')).
Proof.
  unfold upload_saved, save_upload, bind, perform, raise, ret. simpl.
  destruct (tempfile_error (fs w)) as [msg|]; simpl; [right; by eexists _, _|].
  destruct (upload_read_error (content file)) as [msg|]; simpl; [right; by eexists _, _|].
  destruct (tempfile_write_error _ _ _) as [[msg on_disk]|]; simpl;
    [right; by eexists _, _ | by left].
Qed.

Lemma read_only_JSONResponse {A} floats (c : A) : read_only (JSONResponse floats c).
Proof. apply read_only_outcome. Qed.

Lemma JSONResponse_run {A} floats (c : A) s :
  JSONResponse floats c s = (json_render floats c, s).
Proof. unfold JSONResponse, outcome. by destruct (json_render floats c). Qed.

(** The [finally] block on a file that is there: it is removed. *)
Lemma clean_up_present tmp_file_path g w content :
  fs w !! tmp_file_path = Some content ->
  clean_up tmp_file_path (g, w) =
    (inr tt,
     (g, {| fs := delete tmp_file_path (fs w);
            trace := trace w ++ [ os_path_exists tmp_file_path; os_unlink tmp_file_path ] |})).
Proof.
  intros Hp. unfold clean_up, bind. rewrite exists_run.
  rewrite bool_decide_eq_true_2 by (by rewrite Hp).
  rewrite (unlink_present _ _ _ content) by done.
  simpl. by rewrite <- app_assoc.
Qed.

(** A method that only reads, called on the global detector, only reads. *)
Lemma read_only_detector_call {A} name (meth : M CarDetector A) :
  read_only meth -> read_only (detector_call name meth).
Proof.
  intros Hmeth [[d] w]. unfold detector_call. simpl.
  destruct d as [d|]; [|apply reads_refl].
  destruct (Hmeth (d, w)) as (Hd & Hfs & evs & Htr).
  destruct (meth (d, w)) as [r [d' w']]. simpl in *. subst d'.
  repeat split; [done|]. by exists evs.
Qed.

(** The result of a method call on the loaded detector. *)
Lemma detector_call_loaded {A} name (meth : M CarDetector A) d w :
  detector_call name meth ({| detector := Some d |}, w) =
    (fst (meth (d, w)),
     ({| detector := Some (fst (snd (meth (d, w)))) |}, snd (snd (meth (d, w))))).
Proof. unfold detector_call. simpl. by destruct (meth (d, w)) as [r [d' w']]. Qed.

Lemma read_only_processing_error {A} e : read_only (processing_error (A:=A) e).
Proof.
  apply read_only_bind; [apply read_only_tell | intros _; apply read_only_raise].
Qed.

Lemma read_only_detect_car_try file tmp_file_path :
  read_only (detect_car_try file tmp_file_path).
Proof.
  unfold detect_car_try.
  apply read_only_bind;
    [apply read_only_detector_call, read_only_detect_cars | intros [has_cars detections]].
  apply read_only_bind; [apply read_only_detector_call | intros model_name].
  { apply read_only_bind; [apply read_only_get | intros self; apply read_only_ret]. }
  apply read_only_bind; [apply read_only_detector_call | intros threshold].
  { apply read_only_bind; [apply read_only_get | intros self; apply read_only_ret]. }
  apply read_only_JSONResponse.
Qed.

Lemma read_only_detect_car_simple_try file tmp_file_path :
  read_only (detect_car_simple_try file tmp_file_path).
Proof.
  apply read_only_bind;
    [apply read_only_detector_call, read_only_detect_car_simple
    | intros has_cars; apply read_only_JSONResponse].
Qed.

(** A [try] block that only reads, closed by the clean-up of a file that
    is there: the outcome of the block stands and the file is gone,
    whichever way the block ended. *)
Lemma try_finally_clean_up {A} (body : M Globals A) handler tmp_file_path g w content :
  read_only body -> (forall e, read_only (handler e)) ->
  fs w !! tmp_file_path = Some content ->
  exists evs,
    try_finally (try_except body handler) (clean_up tmp_file_path) (g, w) =
      (fst (try_except body handler (g, w)),
       (g, {| fs := delete tmp_file_path (fs w);
              trace := trace w ++ evs ++
                       [ os_path_exists tmp_file_path; os_unlink tmp_file_path ] |})).
Proof.
  intros Hbody Hhandler Hp.
  destruct (read_only_try_except body handler Hbody Hhandler (g, w)) as (Hg & Hfs & evs & Htr).
  unfold try_finally.
  destruct (try_except body handler (g, w)) as [r [g1 w1]]. simpl in *. subst g1.
  rewrite <- Hfs in Hp. rewrite (clean_up_present _ _ _ _ Hp).
  exists evs. by rewrite Hfs, Htr, <- app_assoc.
Qed.

(** The two upload handlers once the detector is loaded and the content
    type is an image type: the upload is saved, and what follows runs on
    the name of the temporary file. *)
Lemma detect_car_passes file d w ct :
  content_type file = Some ct -> String.prefix "image/" ct = true ->
  detect_car file ({| detector := Some d |}, w) =
    bind (save_upload file)
         (fun tmp_file_path =>
            try_finally
              (try_except (detect_car_try file tmp_file_path) processing_error)
              (clean_up tmp_file_path))
         ({| detector := Some d |}, w).
Proof.
  intros Hct Hpre. unfold detect_car. unfold bind at 1. simpl.
  unfold bind at 1. unfold content_type_startswith. rewrite Hct. simpl. by rewrite Hpre.
Qed.

Lemma detect_car_simple_passes file d w ct :
  content_type file = Some ct -> String.prefix "image/" ct = true ->
  api.detect_car_simple file ({| detector := Some d |}, w) =
    bind (save_upload file)
         (fun tmp_file_path =>
            try_finally
              (try_except (detect_car_simple_try file tmp_file_path) processing_error)
              (clean_up tmp_file_path))
         ({| detector := Some d |}, w).
Proof.
  intros Hct Hpre. unfold api.detect_car_simple. unfold bind at 1. simpl.
  unfold bind at 1. unfold content_type_startswith. rewrite Hct. simpl. by rewrite Hpre.
Qed.

Lemma detect_car_accepted file d w ct :
  content_type file = Some ct -> String.prefix "image/" ct = true ->
  upload_saved file w ->
  detect_car file ({| detector := Some d |}, w) =
    try_finally
      (try_except (detect_car_try file (mkstemp (fs w) ".jpg")) processing_error)
      (clean_up (mkstemp (fs w) ".jpg"))
      (snd (save_upload file ({| detector := Some d |}, w))).
Proof.
  intros Hct Hpre Hsaved. rewrite (detect_car_passes _ _ _ _ Hct Hpre).
  unfold bind. by rewrite (save_upload_run _ _ _ Hsaved).
Qed.

Lemma detect_car_simple_accepted file d w ct :
  content_type file = Some ct -> String.prefix "image/" ct = true ->
  upload_saved file w ->
  api.detect_car_simple file ({| detector := Some d |}, w) =
    try_finally
      (try_except (detect_car_simple_try file (mkstemp (fs w) ".jpg")) processing_error)
      (clean_up (mkstemp (fs w) ".jpg"))
      (snd (save_upload file ({| detector := Some d |}, w))).
Proof.
  intros Hct Hpre Hsaved. rewrite (detect_car_simple_passes _ _ _ _ Hct Hpre).
  unfold bind. by rewrite (save_upload_run _ _ _ Hsaved).
Qed.

(** The two upload handlers when saving the upload raises: the exception
    leaves the handler as it is, and the state is the one the failed
    saving left. *)
Lemma upload_handlers_unsaved file d w ct e s' :
  content_type file = Some ct -> String.prefix "image/" ct = true ->
  save_upload file ({| detector := Some d |}, w) = (inl e, s') ->
  detect_car file ({| detector := Some d |}, w) = (inl e, s') /\
  api.detect_car_simple file ({| detector := Some d |}, w) = (inl e, s').
Proof.
  intros Hct Hpre Hsave.
  rewrite (detect_car_passes _ _ _ _ Hct Hpre), (detect_car_simple_passes _ _ _ _ Hct Hpre).
  by rewrite !(bind_inl _ _ _ _ _ Hsave).
Qed.

(** The [try] blocks on the loaded detector, in terms of [detect_cars]. *)
Lemma detect_car_try_run file tmp_file_path d w :
  detect_car_try file tmp_file_path ({| detector := Some d |}, w) =
    (detect_car_rendered file d (fst (detect_cars tmp_file_path (d, w))),
     ({| detector := Some d |}, snd (snd (detect_cars tmp_file_path (d, w))))).
Proof.
  unfold detect_car_try. unfold bind at 1. rewrite detector_call_loaded.
  destruct (read_only_detect_cars tmp_file_path (d, w)) as (Hd & _).
  destruct (detect_cars tmp_file_path (d, w)) as [[e|[has_cars detections]] [d' w']];
    simpl in *; subst d'; [done|].
  unfold bind at 1. rewrite detector_call_loaded. simpl.
  unfold bind at 1. rewrite detector_call_loaded. simpl. apply JSONResponse_run.
Qed.

Lemma detect_car_simple_try_run file tmp_file_path d w :
  detect_car_simple_try file tmp_file_path ({| detector := Some d |}, w) =
    (detect_car_simple_rendered file (fst (detect_cars tmp_file_path (d, w))),
     ({| detector := Some d |}, snd (snd (detect_cars tmp_file_path (d, w))))).
Proof.
  unfold detect_car_simple_try. unfold bind at 1. rewrite detector_call_loaded.
  rewrite detect_car_simple_is_fst.
  destruct (read_only_detect_cars tmp_file_path (d, w)) as (Hd & _).
  destruct (detect_cars tmp_file_path (d, w)) as [[e|[has_cars detections]] [d' w']];
    simpl in *; subst d'; done.
Qed.

(** The [try]/[except] of an upload handler around any block: the outcome
    is wrapped, and an exception costs one error line in the log. *)
Lemma try_except_wrapped {A} (body : M Globals A) s :
  try_except body processing_error s =
    (wrapped (fst (body s)),
     (fst (snd (body s)),
      {| fs := fs (snd (snd (body s)));
         trace := trace (snd (snd (body s))) ++ error_log (fst (body s)) |})).
Proof.
  unfold try_except. destruct (body s) as [[e|a] [g [files tr]]]; simpl; [done|].
  by rewrite app_nil_r.
Qed.

(** Both upload handlers, from start to end, for an accepted upload that
    is saved: each answers the wrapped outcome of its [try] block, and
    leaves the files as they were but for the temporary name, which is
    free. *)
Lemma upload_handlers_saved file d w ct :
  content_type file = Some ct -> String.prefix "image/" ct = true ->
  upload_saved file w ->
  exists evs,
    snd (detect_cars (mkstemp (fs w) ".jpg") (d, saved_world file w)) =
      (d, {| fs := fs (saved_world file w); trace := trace (saved_world file w) ++ evs |}) /\
    detect_car file ({| detector := Some d |}, w) =
      (wrapped (detect_car_rendered file d
                  (fst (detect_cars (mkstemp (fs w) ".jpg") (d, saved_world file w)))),
       ({| detector := Some d |},
        {| fs := delete (mkstemp (fs w) ".jpg") (fs w);
           trace := (trace (saved_world file w) ++ evs) ++
                    error_log (detect_car_rendered file d
                      (fst (detect_cars (mkstemp (fs w) ".jpg") (d, saved_world file w)))) ++
                    [ os_path_exists (mkstemp (fs w) ".jpg");
                      os_unlink (mkstemp (fs w) ".jpg") ] |})) /\
    api.detect_car_simple file ({| detector := Some d |}, w) =
      (wrapped (detect_car_simple_rendered file
                  (fst (detect_cars (mkstemp (fs w) ".jpg") (d, saved_world file w)))),
       ({| detector := Some d |},
        {| fs := delete (mkstemp (fs w) ".jpg") (fs w);
           trace := (trace (saved_world file w) ++ evs) ++
                    error_log (detect_car_simple_rendered file
                      (fst (detect_cars (mkstemp (fs w) ".jpg") (d, saved_world file w)))) ++
                    [ os_path_exists (mkstemp (fs w) ".jpg");
                      os_unlink (mkstemp (fs w) ".jpg") ] |})).
Proof.
  intros Hct Hpre Hsaved.
  destruct (read_only_detect_cars (mkstemp (fs w) ".jpg") (d, saved_world file w))
    as (Hd & Hfs & evs & Htr).
  exists evs.
  rewrite (detect_car_accepted _ _ _ _ Hct Hpre Hsaved),
          (detect_car_simple_accepted _ _ _ _ Hct Hpre Hsaved).
  rewrite (save_upload_run _ _ _ Hsaved). unfold snd at 2 3. fold (saved_world file w).
  unfold try_finally. rewrite !try_except_wrapped.
  rewrite detect_car_try_run, detect_car_simple_try_run.
  destruct (detect_cars (mkstemp (fs w) ".jpg") (d, saved_world file w)) as [r [d' [files tr]]].
  simpl in Hd, Hfs, Htr. subst d' files tr. simpl.
  split; [done|].
  rewrite !(clean_up_present _ _ _ (content file)) by (simpl; apply lookup_insert_eq).
  simpl. rewrite delete_insert_eq. by rewrite <- !app_assoc.
Qed.



(** Every outcome of the handler of POST /detect-car: a content built
    from what [detect_cars] returned for some path and world, or an
    [HTTPException] with status 500 or 400, or an exception of another
    class. *)
Lemma detect_car_outcome file g w :
  match fst (detect_car file (g, w)) with
  | inr c =>
      exists d tmp_file_path w0,
        detector g = Some d /\
        fst (detect_cars tmp_file_path (d, w0)) = inr (has_cars c, detections c) /\
        car_count c = length (detections c)
  | inl (HTTPException code _) => code = 500%Z \/ code = 400%Z
  | inl _ => True
  end.
Proof.
  destruct g as [[d|]]; [|by left].
  destruct (content_type file) as [ct|] eqn:Hct.
  2:{ unfold detect_car, bind, content_type_startswith. simpl. by rewrite Hct. }
  destruct (String.prefix "image/" ct) eqn:Hpre.
  2:{ unfold detect_car, bind, content_type_startswith. simpl.
      rewrite Hct. simpl. rewrite Hpre. simpl. by right. }
  destruct (save_upload_cases file {| detector := Some d |} w)
    as [Hsaved | (msg & w' & Hsave)].
  2:{ destruct (upload_handlers_unsaved _ _ _ _ _ _ Hct Hpre Hsave) as [-> _]. done. }
  destruct (upload_handlers_saved file d w ct Hct Hpre Hsaved) as (evs & _ & -> & _).
  simpl.
  destruct (fst (detect_cars _ _)) as [e|[b ds]] eqn:Hrun; simpl; [by left|].
  unfold json_render. destruct (List.find _ _) as [f|]; simpl; [by left|].
  eexists d, _, _. split; [done|]. rewrite Hrun. by split.
Qed.

(** C9: in every response of POST /detect-car with status 200 the field
    [car_count] is the number of entries of [detections], and [has_cars] is
    true exactly when [car_count] is positive. *)
Theorem detect_car_count_is_length file s resp s' :
  handle (POST_detect_car file) s = (resp, s') ->
  status_code resp = 200%Z ->
  exists c,
    body resp = body_detect_car c /\
    car_count c = length (detections c) /\
    (has_cars c = true <-> 0 < car_count c).
Proof.
  destruct s as [g w]. unfold handle, served.
  pose proof (detect_car_outcome file g w) as Hout.
  destruct (detect_car file (g, w)) as [[e|c] s1]; simpl in *; intros [= <- <-] Hstatus.
  - destruct e; simpl in Hstatus; try discriminate.
    destruct Hout; subst; discriminate.
  - destruct Hout as (d & tmp & w0 & _ & Hrun & Hcount).
    exists c. split; [done|]. split; [done|]. rewrite Hcount.
    destruct (detect_cars tmp (d, w0)) as [r s2] eqn:Hdc. simpl in Hrun. subst r.
    apply detect_cars_returns_spec in Hdc
      as (p & m & image & inputs & outputs & results & rest
          & _ & _ & _ & _ & _ & _ & -> & ->).
    rewrite existsb_filter_nil. unfold car_filter. rewrite length_map.
    destruct (List.filter _ _); simpl; split; (congruence || lia).
Qed.

(** C1, as the handlers have it: an upload whose declared content type
    does not start with "image/" is answered 400 "File must be an image"
    by both upload handlers when the detector is loaded, and
    500 "Model not loaded" when it is not; in both cases the state is left
    as it was. *)
Theorem non_image_upload_response file ct g w :
  content_type file = Some ct ->
  String.prefix "image/" ct = false ->
  handle (POST_detect_car file) (g, w) =
    (match detector g with
     | Some _ => {| status_code := 400; body := body_detail "File must be an image" |}
     | None => {| status_code := 500; body := body_detail "Model not loaded" |}
     end, (g, w)) /\
  handle (POST_detect_car_simple file) (g, w) =
    (match detector g with
     | Some _ => {| status_code := 400; body := body_detail "File must be an image" |}
     | None => {| status_code := 500; body := body_detail "Model not loaded" |}
     end, (g, w)).
Proof.
  intros Hct Hpre. destruct g as [[d|]]; [|by split].
  unfold handle, served, detect_car, api.detect_car_simple, bind, content_type_startswith.
  simpl. rewrite Hct. simpl. rewrite Hpre. by split.
Qed.

(** C8, where the handlers depart from it: the claim has the temporary
    file removed in every request that created it.  When the upload cannot
    be saved although its temporary file was created (reading the upload
    raised, or writing or closing the file did), the exception leaves both
    upload handlers as it is, before the [try] and its [finally] are
    reached, no [os.unlink] is called, and the file stays on disk. *)
Theorem upload_left_when_saving_fails file d w ct e s' :
  content_type file = Some ct ->
  String.prefix "image/" ct = true ->
  tempfile_error (fs w) = None ->
  save_upload file ({| detector := Some d |}, w) = (inl e, s') ->
  detect_car file ({| detector := Some d |}, w) = (inl e, s') /\
  api.detect_car_simple file ({| detector := Some d |}, w) = (inl e, s') /\
  is_Some (fs (snd s') !! mkstemp (fs w) ".jpg") /\
  In (NamedTemporaryFile (mkstemp (fs w) ".jpg")) (trace (snd s')) /\
  ~ In (os_unlink (mkstemp (fs w) ".jpg")) (skipn (length (trace w)) (trace (snd s'))).
Proof.
  intros Hct Hpre Hcreate Hsave.
  destruct (upload_handlers_unsaved _ _ _ _ _ _ Hct Hpre Hsave) as [-> ->].
  split; [done|]. split; [done|].
  revert Hsave. unfold save_upload, bind, perform, raise, ret. simpl.
  rewrite Hcreate. simpl.
  destruct (upload_read_error (content file)) as [msg|]; simpl.
  - intros [= <- <-]. simpl. rewrite lookup_insert_eq.
    split; [by eexists|]. split; [apply in_or_app; right; by left|].
    rewrite skipn_app, skipn_all, Nat.sub_diag. simpl. by intros [?|[]].
  - destruct (tempfile_write_error _ _ _) as [[msg on_disk]|]; simpl; [|done].
    intros [= <- <-]. simpl. rewrite lookup_insert_eq.
    split; [by eexists|]. split; [apply in_or_app; left; apply in_or_app; right; by left|].
    rewrite <- app_assoc, skipn_app, skipn_all, Nat.sub_diag. simpl.
    by intros [?|[?|[]]].
Qed.

(** A request to one of the three endpoints that need the model, when the
    global is [None]. *)
Lemma handle_not_loaded req w :
  req <> GET_root ->
  handle req ({| detector := None |}, w) =
    ({| status_code := 500; body := body_detail "Model not loaded" |},
     ({| detector := None |}, w)).
Proof. by destruct req. Qed.

(** C5: when building the detector raises at start-up, the initialisation
    still returns, with the global set to [None]; from that state every
    sequence of requests to GET /model-info, POST /detect-car and
    POST /detect-car-simple is answered 500 "Model not loaded", request
    after request, and the world is left as it was: no file is written,
    no call is recorded (nothing is decoded, run or filtered). *)
Theorem model_not_loaded_after_failed_start g w e s1 :
  CarDetector_ "facebook/detr-resnet-50" 0.9%float (g, w) = (inl e, s1) ->
  exists w1,
    init_detector (g, w) = (inr tt, ({| detector := None |}, w1)) /\
    forall reqs,
      Forall (fun req => req <> GET_root) reqs ->
      serve reqs ({| detector := None |}, w1) =
        (map (fun _ => {| status_code := 500; body := body_detail "Model not loaded" |}) reqs,
         ({| detector := None |}, w1)).
Proof.
  intros Hfail.
  exists (emit (logger_error ("Failed to initialize car detector: " +:+ str e)) (snd s1)).
  split.
  - unfold init_detector, try_except. rewrite (bind_inl _ _ _ _ _ Hfail).
    by destruct s1 as [g1 w1].
  - intros reqs Hreqs. induction Hreqs as [|req reqs Hreq _ IH]; [done|].
    simpl. rewrite (handle_not_loaded _ _ Hreq). by rewrite IH.
Qed.

End ApiFacts.

(** ** The theorems at work on the concrete platform *)

Module Runs.
Import Py Lib car_detector api Spec Demo.
#[local] Existing Instance imaging.
#[local] Existing Instance platform.

Lemma missing_file_run :
  fs world0 !! "/data/missing.jpg" = None /\
  detect_cars "/data/missing.jpg" (demo_detector, world0) =
    (inl (FileNotFoundError "Image file not found: /data/missing.jpg"),
     (demo_detector,
      {| fs := fs world0; trace := [os_path_exists "/data/missing.jpg"] |})).
Proof.
  split; [reflexivity|].
  apply (detect_cars_missing_file demo_detector world0 "/data/missing.jpg").
  reflexivity.
Defined.

(** The street picture: four candidates pass the threshold (car, person,
    car, truck), one car does not. *)
Lemma street_bounded_and_car :
  exists has_cars car_detections s',
    detect_cars "/data/street.jpg" (demo_detector, world0)
      = (inr (has_cars, car_detections), s') /\
    length car_detections <= 4 /\
    Forall (fun d => label d = "car") car_detections.
Proof.
  edestruct (detect_cars_filter_bounded_and_car demo_detector world0 "/data/street.jpg")
    as (has_cars & car_detections & s' & Hrun & Hlen & Hcar & _).
  - eexists. reflexivity.
  - lazy. reflexivity.
  - lazy. reflexivity.
  - reflexivity.
  - repeat constructor; eexists; reflexivity.
  - exists has_cars, car_detections, s'. split; [exact Hrun|]. split; [exact Hlen | exact Hcar].
Defined.

Lemma street_cars_in_order :
  exists has_cars s',
    detect_cars "/data/street.jpg" (demo_detector, world0) =
      (inr (has_cars,
            [ {| label := "car"; confidence := 0.95; bbox := [100; 100; 200; 200]%float;
                 bbox_format := "xyxy" |};
              {| label := "car"; confidence := 0.97; bbox := [300; 300; 400; 400]%float;
                 bbox_format := "xyxy" |} ]),
       s').
Proof.
  edestruct (detect_cars_keeps_cars_in_order demo_detector world0 "/data/street.jpg")
    as (has_cars & s' & Hrun).
  - eexists. reflexivity.
  - lazy. reflexivity.
  - lazy. reflexivity.
  - reflexivity.
  - repeat constructor; eexists; reflexivity.
  - exists has_cars, s'. exact Hrun.
Defined.

Lemma street_flag :
  fst (detect_cars "/data/street.jpg" (demo_detector, world0)) =
    inr (true,
         [ {| label := "car"; confidence := 0.95; bbox := [100; 100; 200; 200]%float;
              bbox_format := "xyxy" |};
           {| label := "car"; confidence := 0.97; bbox := [300; 300; 400; 400]%float;
              bbox_format := "xyxy" |} ]) /\
  (true = true <->
   [ {| label := "car"; confidence := 0.95; bbox := [100; 100; 200; 200]%float;
        bbox_format := "xyxy" |};
     {| label := "car"; confidence := 0.97; bbox := [300; 300; 400; 400]%float;
        bbox_format := "xyxy" |} ] <> []).
Proof.
  split; [reflexivity|].
  apply (detect_cars_flag_iff_nonempty demo_detector world0 "/data/street.jpg" _ _
           (snd (detect_cars "/data/street.jpg" (demo_detector, world0)))).
  reflexivity.
Defined.

(** An adapter that hands over a car below the threshold (score 0.5 for
    the threshold 0.9): [detect_cars] returns it with the others. *)
Lemma low_score_car_emitted :
  exists has_cars s',
    detect_cars "/data/street.jpg" (lenient_detector, world0) =
      (inr (has_cars,
            [ {| label := "car"; confidence := 0.95; bbox := [100; 100; 200; 200]%float;
                 bbox_format := "xyxy" |};
              {| label := "car"; confidence := 0.97; bbox := [300; 300; 400; 400]%float;
                 bbox_format := "xyxy" |};
              {| label := "car"; confidence := 0.5; bbox := [10; 10; 20; 20]%float;
                 bbox_format := "xyxy" |} ]),
       s').
Proof.
  edestruct (threshold_in_adapter_label_in_filter lenient_detector world0 "/data/street.jpg")
    as (_ & has_cars & car_detections & s' & Hrun & Hlist & _).
  - eexists. reflexivity.
  - lazy. reflexivity.
  - lazy. reflexivity.
  - reflexivity.
  - repeat constructor; eexists; reflexivity.
  - exists has_cars, s'. rewrite Hrun, Hlist. reflexivity.
Defined.

Lemma text_upload_with_detector :
  handle (POST_detect_car text_upload) ({| detector := Some demo_detector |}, world0) =
    ({| status_code := 400; body := body_detail "File must be an image" |},
     ({| detector := Some demo_detector |}, world0)) /\
  handle (POST_detect_car_simple text_upload) ({| detector := Some demo_detector |}, world0) =
    ({| status_code := 400; body := body_detail "File must be an image" |},
     ({| detector := Some demo_detector |}, world0)).
Proof.
  apply (non_image_upload_response text_upload "text/plain"
           {| detector := Some demo_detector |} world0); reflexivity.
Defined.

(** The same upload when the detector is not loaded: the answer is the
    500 of the first test, not the 400 of the second. *)
Lemma text_upload_without_detector :
  content_type text_upload = Some "text/plain" /\
  String.prefix "image/" "text/plain" = false /\
  fst (handle (POST_detect_car text_upload) ({| detector := None |}, world0)) =
    {| status_code := 500; body := body_detail "Model not loaded" |} /\
  fst (handle (POST_detect_car_simple text_upload) ({| detector := None |}, world0)) =
    {| status_code := 500; body := body_detail "Model not loaded" |} /\
  status_code (fst (handle (POST_detect_car text_upload) ({| detector := None |}, world0)))
    <> 400%Z.
Proof. repeat split; try reflexivity. discriminate. Qed.

Lemma offline_start :
  exists w1,
    init_detector (H0 := offline) ({| detector := None |}, world0)
      = (inr tt, ({| detector := None |}, w1)) /\
    serve (H0 := offline)
      [ GET_model_info; POST_detect_car jpeg_upload; POST_detect_car_simple text_upload ]
      ({| detector := None |}, w1) =
      ([ {| status_code := 500; body := body_detail "Model not loaded" |};
         {| status_code := 500; body := body_detail "Model not loaded" |};
         {| status_code := 500; body := body_detail "Model not loaded" |} ],
       ({| detector := None |}, w1)).
Proof.
  edestruct (model_not_loaded_after_failed_start (H0 := offline)
               {| detector := None |} world0) as (w1 & Hinit & Hserve).
  - lazy. reflexivity.
  - exists w1. split; [exact Hinit|].
    apply (Hserve [ GET_model_info; POST_detect_car jpeg_upload;
                    POST_detect_car_simple text_upload ]).
    repeat constructor; discriminate.
Defined.

(** The disk is full: the temporary file of the upload is created, the
    write fails, and the file is still there when the handler has raised. *)
Lemma full_disk_upload_left :
  detect_car (H0 := full_disk) jpeg_upload ({| detector := Some demo_detector |}, world0) =
    (inl (OSError "[Errno 28] No space left on device"),
     ({| detector := Some demo_detector |},
      {| fs := <["/tmp/tmpq1w2e3.jpg" := []]> (fs world0);
         trace := [ NamedTemporaryFile "/tmp/tmpq1w2e3.jpg";
                    tmp_file_write "/tmp/tmpq1w2e3.jpg" (content jpeg_upload) ] |})) /\
  is_Some ((<["/tmp/tmpq1w2e3.jpg" := []]> (fs world0) : gmap string bytes)
             !! "/tmp/tmpq1w2e3.jpg").
Proof.
  destruct (upload_left_when_saving_fails (H0 := full_disk) jpeg_upload demo_detector world0
              "image/jpeg" (OSError "[Errno 28] No space left on device")
              ({| detector := Some demo_detector |},
               {| fs := <["/tmp/tmpq1w2e3.jpg" := []]> (fs world0);
                  trace := [ NamedTemporaryFile "/tmp/tmpq1w2e3.jpg";
                             tmp_file_write "/tmp/tmpq1w2e3.jpg" (content jpeg_upload) ] |})
              eq_refl eq_refl eq_refl eq_refl)
    as (Hfull & _ & Hleft & _).
  split; [exact Hfull | exact Hleft].
Defined.


Lemma jpeg_upload_count :
  exists c,
    body (fst (handle (POST_detect_car jpeg_upload)
                 ({| detector := Some demo_detector |}, world0))) = body_detect_car c /\
    car_count c = length (detections c) /\
    (has_cars c = true <-> 0 < car_count c).
Proof.
  apply (detect_car_count_is_length jpeg_upload
           ({| detector := Some demo_detector |}, world0) _
           (snd (handle (POST_detect_car jpeg_upload)
                   ({| detector := Some demo_detector |}, world0)))).
  - reflexivity.
  - reflexivity.
Defined.

End Runs.

(** ** More about the detector: construction, failures, edge cases *)

Section DetectorEdges.
Import Py Lib car_detector Spec.
Context `{Platform}.
Local Open Scope py_scope.

(** Building a detector when both [from_pretrained] calls succeed: the
    object carries the arguments and the two loaded parts, the processor
    is fetched before the model, and nothing but the record of calls
    changes for the caller. *)
Theorem CarDetector_loaded {X} name threshold (x : X) w p m :
  DetrImageProcessor_from_pretrained name = inr p ->
  DetrForObjectDetection_from_pretrained name = inr m ->
  CarDetector_ name threshold (x, w) =
    (inr {| model_name := name; confidence_threshold := threshold;
            processor := Some p; model := Some m |},
     (x, {| fs := fs w;
            trace := trace w ++
              [ logger_info ("Loading model: " +:+ name);
                from_pretrained_call "DetrImageProcessor" name;
                from_pretrained_call "DetrForObjectDetection" name;
                logger_info "Model loaded successfully" ] |})).
Proof.
  intros Hp Hm. unfold CarDetector_, _load_model, try_except, bind. simpl.
  rewrite call_run, Hp. simpl. rewrite call_run, Hm. simpl.
  unfold emit; simpl. by rewrite <- !app_assoc.
Qed.

(** When the processor cannot be fetched the constructor raises that very
    exception after logging it, and the model is never asked for. *)
Theorem CarDetector_processor_failure {X} name threshold (x : X) w e :
  DetrImageProcessor_from_pretrained name = inl e ->
  CarDetector_ name threshold (x, w) =
    (inl e,
     (x, {| fs := fs w;
            trace := trace w ++
              [ logger_info ("Loading model: " +:+ name);
                from_pretrained_call "DetrImageProcessor" name;
                logger_error ("Failed to load model: " +:+ str e) ] |})).
Proof.
  intros Hp. unfold CarDetector_, _load_model, try_except, bind. simpl.
  rewrite call_run, Hp. simpl.
  unfold emit; simpl. by rewrite <- !app_assoc.
Qed.

(** When the processor is fetched and the model is not, the constructor
    raises the model's exception after logging it; the caller gets no
    half-built object. *)
Theorem CarDetector_model_failure {X} name threshold (x : X) w p e :
  DetrImageProcessor_from_pretrained name = inr p ->
  DetrForObjectDetection_from_pretrained name = inl e ->
  CarDetector_ name threshold (x, w) =
    (inl e,
     (x, {| fs := fs w;
            trace := trace w ++
              [ logger_info ("Loading model: " +:+ name);
                from_pretrained_call "DetrImageProcessor" name;
                from_pretrained_call "DetrForObjectDetection" name;
                logger_error ("Failed to load model: " +:+ str e) ] |})).
Proof.
  intros Hp Hm. unfold CarDetector_, _load_model, try_except, bind. simpl.
  rewrite call_run, Hp. simpl. rewrite call_run, Hm. simpl.
  unfold emit; simpl. by rewrite <- !app_assoc.
Qed.

(** Whatever its outcome, [detect_cars] assigns no attribute of the
    detector and writes, creates or removes no file: it only adds to the
    record of calls. *)
Theorem detect_cars_changes_nothing self w image_path :
  exists evs,
    snd (detect_cars image_path (self, w)) =
      (self, {| fs := fs w; trace := trace w ++ evs |}).
Proof.
  destruct (read_only_detect_cars image_path (self, w)) as (Hself & Hfs & evs & Htr).
  destruct (detect_cars image_path (self, w)) as [r [self' [files tr]]].
  simpl in *. subst. by exists evs.
Qed.

(** The three places where the [try] block of [detect_cars] can raise;
    in each the exception is logged and raised again. *)
Lemma detect_cars_load_fails self w image_path e s1 :
  is_Some (fs w !! image_path) ->
  load_image image_path (self, emit (os_path_exists image_path) w) = (inl e, s1) ->
  detect_cars image_path (self, w) =
    (inl e,
     (fst s1, emit (logger_error ("Error processing image " +:+ image_path
                                  +:+ ": " +:+ str e)) (snd s1))).
Proof.
  intros Hsome Hload. unfold detect_cars. unfold bind at 1.
  rewrite exists_run, bool_decide_eq_true_2 by done. simpl.
  rewrite (try_except_inl _ _ _ e s1) by (by rewrite (bind_inl _ _ _ _ _ Hload)).
  by destruct s1.
Qed.

Lemma detect_cars_inference_fails self w image_path image s1 e s2 :
  is_Some (fs w !! image_path) ->
  load_image image_path (self, emit (os_path_exists image_path) w) = (inr image, s1) ->
  run_inference image s1 = (inl e, s2) ->
  detect_cars image_path (self, w) =
    (inl e,
     (fst s2, emit (logger_error ("Error processing image " +:+ image_path
                                  +:+ ": " +:+ str e)) (snd s2))).
Proof.
  intros Hsome Hload Hinf. unfold detect_cars. unfold bind at 1.
  rewrite exists_run, bool_decide_eq_true_2 by done. simpl.
  rewrite (try_except_inl _ _ _ e s2)
    by (by rewrite (bind_inr _ _ _ _ _ Hload), (bind_inl _ _ _ _ _ Hinf)).
  by destruct s2.
Qed.

Lemma detect_cars_filter_fails self w image_path image s1 results s2 e s3 :
  is_Some (fs w !! image_path) ->
  load_image image_path (self, emit (os_path_exists image_path) w) = (inr image, s1) ->
  run_inference image s1 = (inr results, s2) ->
  extract_car_detections results s2 = (inl e, s3) ->
  detect_cars image_path (self, w) =
    (inl e,
     (fst s3, emit (logger_error ("Error processing image " +:+ image_path
                                  +:+ ": " +:+ str e)) (snd s3))).
Proof.
  intros Hsome Hload Hinf Hext. unfold detect_cars. unfold bind at 1.
  rewrite exists_run, bool_decide_eq_true_2 by done. simpl.
  rewrite (try_except_inl _ _ _ e s3)
    by (by rewrite (bind_inr _ _ _ _ _ Hload), (bind_inr _ _ _ _ _ Hinf),
             (bind_inl _ _ _ _ _ Hext)).
  by destruct s3.
Qed.

(** The detector a stage leaves behind is the one it found. *)
Lemma stage_keeps_self {A} (m : M CarDetector A) self w r s' :
  read_only m -> m (self, w) = (r, s') -> fst s' = self.
Proof. intros Hm Hrun. destruct (Hm (self, w)) as (Hself & _). by rewrite Hrun in Hself. Qed.

(** Whatever is raised inside the [try] block of [detect_cars] (while the
    image is loaded, while the model runs, or in the filter) leaves
    [detect_cars] as the same exception, after one error line in the log;
    the detector is as it was. *)
Theorem detect_cars_reraises self w image_path e s_raise :
  is_Some (fs w !! image_path) ->
  (load_image image_path (self, emit (os_path_exists image_path) w) = (inl e, s_raise) \/
   exists image s1,
     load_image image_path (self, emit (os_path_exists image_path) w) = (inr image, s1) /\
     (run_inference image s1 = (inl e, s_raise) \/
      exists results s2,
        run_inference image s1 = (inr results, s2) /\
        extract_car_detections results s2 = (inl e, s_raise))) ->
  detect_cars image_path (self, w) =
    (inl e,
     (self, emit (logger_error ("Error processing image " +:+ image_path
                                +:+ ": " +:+ str e)) (snd s_raise))).
Proof.
  intros Hsome [Hload | (image & s1 & Hload & [Hinf | (results & s2 & Hinf & Hext)])].
  - rewrite (detect_cars_load_fails _ _ _ _ _ Hsome Hload).
    by rewrite (stage_keeps_self _ _ _ _ _ (read_only_load_image image_path) Hload).
  - rewrite (detect_cars_inference_fails _ _ _ _ _ _ _ Hsome Hload Hinf).
    pose proof (stage_keeps_self _ _ _ _ _ (read_only_load_image image_path) Hload) as H1.
    destruct s1 as [self1 w1]. simpl in H1. subst self1.
    by rewrite (stage_keeps_self _ _ _ _ _ (read_only_run_inference image) Hinf).
  - rewrite (detect_cars_filter_fails _ _ _ _ _ _ _ _ _ Hsome Hload Hinf Hext).
    pose proof (stage_keeps_self _ _ _ _ _ (read_only_load_image image_path) Hload) as H1.
    destruct s1 as [self1 w1]. simpl in H1. subst self1.
    pose proof (stage_keeps_self _ _ _ _ _ (read_only_run_inference image) Hinf) as H2.
    destruct s2 as [self2 w2]. simpl in H2. subst self2.
    by rewrite (stage_keeps_self _ _ _ _ _ (read_only_extract_car_detections results) Hext).
Qed.

Lemma for_in_app_run {X A Acc} (xs ys : list A) (body : A -> Acc -> M X Acc) acc s :
  for_in (xs ++ ys) body acc s = bind (for_in xs body acc) (for_in ys body) s.
Proof.
  revert acc s. induction xs as [|x xs IH]; intros acc s; simpl; [done|].
  unfold bind. destruct (body x acc s) as [[e|acc'] s1]; [done|].
  rewrite IH. reflexivity.
Qed.

(** A turn of the loop on a label id the vocabulary does not have. *)
Lemma loop_body_unknown self w m raw acc :
  model self = Some m ->
  dict_get (config_id2label m) (raw_label_id raw) = None ->
  loop_body raw acc (self, w) = (inl (KeyError (raw_label_id raw)), (self, w)).
Proof.
  destruct raw as [[score label_id] box], acc as [has_cars car_detections].
  unfold raw_label_id; simpl. intros Hm Hnone.
  unfold loop_body, bind, get, getattr, getitem, raise; simpl.
  rewrite Hm; simpl. by rewrite Hnone.
Qed.

(** A label id outside the vocabulary: [detect_cars] raises [KeyError] for
    the first such id, whatever cars it had already collected from the
    detections before it, and whatever follows. *)
Theorem detect_cars_unknown_label
    self w image_path image s1 results s2 model_ before raw after :
  is_Some (fs w !! image_path) ->
  load_image image_path (self, emit (os_path_exists image_path) w) = (inr image, s1) ->
  run_inference image s1 = (inr results, s2) ->
  model self = Some model_ ->
  raw_detections results = before ++ raw :: after ->
  covers (config_id2label model_) before ->
  dict_get (config_id2label model_) (raw_label_id raw) = None ->
  detect_cars image_path (self, w) =
    (inl (KeyError (raw_label_id raw)),
     (self, emit (logger_error ("Error processing image " +:+ image_path
                                +:+ ": " +:+ pretty (raw_label_id raw))) (snd s2))).
Proof.
  intros Hsome Hload Hinf Hm Hsplit Hcov Hnone.
  pose proof (stage_keeps_self _ _ _ _ _ (read_only_load_image image_path) Hload) as H1.
  destruct s1 as [self1 w1]. simpl in H1. subst self1.
  pose proof (stage_keeps_self _ _ _ _ _ (read_only_run_inference image) Hinf) as H2.
  destruct s2 as [self2 w2]. simpl in H2. subst self2.
  rewrite (detect_cars_filter_fails _ _ _ _ _ _ _ (KeyError (raw_label_id raw)) (self, w2)
             Hsome Hload Hinf); [done|].
  unfold extract_car_detections. fold (raw_detections results). rewrite Hsplit.
  rewrite for_in_app_run. unfold bind.
  rewrite (for_in_loop_body_covered _ _ _ _ _ _ Hm Hcov). simpl. unfold bind.
  by rewrite (loop_body_unknown _ _ _ _ _ Hm Hnone).
Qed.

(** The image the model is run on has mode "RGB", provided PIL's
    conversion to "RGB" gives an image of that mode: an image decoded in
    another mode is converted first, one decoded as "RGB" is passed as it
    is. *)
Theorem detect_cars_runs_on_rgb self w image_path r s' :
  (forall image image', Image_convert image "RGB" = inr image' -> Image_mode image' = "RGB") ->
  detect_cars image_path (self, w) = (inr r, s') ->
  exists image s1 results s2,
    load_image image_path (self, emit (os_path_exists image_path) w) = (inr image, s1) /\
    run_inference image s1 = (inr results, s2) /\
    Image_mode image = "RGB".
Proof.
  intros Hconv Hrun.
  apply detect_cars_inv in Hrun as (image & s1 & results & s2 & s3 & _ & Hload & Hinf & _).
  exists image, s1, results, s2. split; [done|]. split; [done|].
  unfold load_image in Hload.
  apply bind_inr_inv in Hload as (image0 & s0 & _ & Hmode).
  destruct (String.eqb (Image_mode image0) "RGB") eqn:Heq; simpl in Hmode.
  - injection Hmode as <- _. by apply String.eqb_eq.
  - destruct s0 as [x0 w0]. rewrite call_run in Hmode. injection Hmode as Hc _.
    by eapply Hconv.
Qed.

(** No detection above the threshold (one of the three result tensors is
    empty): [detect_cars] returns [(False, [])], whatever the vocabulary. *)
Theorem detect_cars_no_detection self w image_path image s1 results s2 :
  is_Some (fs w !! image_path) ->
  load_image image_path (self, emit (os_path_exists image_path) w) = (inr image, s1) ->
  run_inference image s1 = (inr results, s2) ->
  scores results = [] \/ labels results = [] \/ boxes results = [] ->
  detect_cars image_path (self, w) =
    (inr (false, []),
     (self, emit (logger_info ("Detected 0 cars in " +:+ image_path)) (snd s2))).
Proof.
  intros Hsome Hload Hinf Hempty.
  pose proof (stage_keeps_self _ _ _ _ _ (read_only_load_image image_path) Hload) as H1.
  destruct s1 as [self1 w1]. simpl in H1. subst self1.
  pose proof (stage_keeps_self _ _ _ _ _ (read_only_run_inference image) Hinf) as H2.
  destruct s2 as [self2 w2]. simpl in H2. subst self2.
  rewrite (detect_cars_stages _ _ _ _ _ _ _ (false, []) (self, w2) Hsome Hload Hinf);
    [done|].
  unfold extract_car_detections.
  assert (zip3 (scores results) (labels results) (boxes results) = []) as ->; [|done].
  destruct (scores results) as [|x a]; [done|].
  destruct (labels results) as [|y b]; [done|].
  destruct (boxes results) as [|z c]; [|exfalso]; [done|].
  by destruct Hempty as [?|[?|?]].
Qed.

(** A successful [detect_cars] ends with the log line that counts the
    records it returns. *)
Theorem detect_cars_logs_count self w image_path has_cars car_detections s' :
  detect_cars image_path (self, w) = (inr (has_cars, car_detections), s') ->
  last (trace (snd s')) =
    Some (logger_info ("Detected " +:+ pretty (length car_detections)
                       +:+ " cars in " +:+ image_path)).
Proof.
  intros Hrun.
  apply detect_cars_inv in Hrun as (image & s1 & results & s2 & s3 & _ & _ & _ & _ & ->).
  simpl. apply last_snoc.
Qed.

Lemma dict_get_In {V} (d : list (Z * V)) k v :
  dict_get d k = Some v -> In v (map snd d).
Proof.
  induction d as [|[k' v'] d IH]; simpl; [done|].
  destruct (Z.eqb k' k); [intros [= ->]; by left | intros Hd; right; by apply IH].
Qed.

(** When [detect_cars] reports a car, "car" is one of the labels
    [get_model_info] lists for the same detector. *)
Theorem car_found_is_listed self w image_path car_detections s' :
  detect_cars image_path (self, w) = (inr (true, car_detections), s') ->
  exists info labels_,
    car_detector.get_model_info (self, w) = (inr info, (self, w)) /\
    available_labels info = Some labels_ /\
    In "car" labels_.
Proof.
  intros Hrun.
  apply detect_cars_returns_spec in Hrun
    as (p & m & image & inputs & outputs & results & rest
        & _ & Hm & _ & _ & _ & _ & Hflag & _).
  symmetry in Hflag. apply existsb_exists in Hflag as (raw & _ & Hcar).
  apply is_car_exact in Hcar.
  eexists _, _. split; [reflexivity|]. simpl. rewrite Hm. split; [reflexivity|].
  by eapply dict_get_In.
Qed.

(** A file that is there and does not decode. *)
Lemma load_image_decode_fails {X} image_path (x : X) w content e :
  fs w !! image_path = Some content ->
  Image_decode content = inl e ->
  load_image image_path (x, w) = (inl e, (x, emit (Image_open_call image_path) w)).
Proof.
  intros Hfile Hdec. unfold load_image, Image_open, bind, tell, perform. simpl.
  by rewrite Hfile, Hdec.
Qed.

(** The constructor leaves the caller's state and the files alone. *)
Lemma CarDetector_frame {X} name threshold (x : X) w :
  fst (snd (CarDetector_ name threshold (x, w))) = x /\
  fs (snd (snd (CarDetector_ name threshold (x, w)))) = fs w.
Proof.
  unfold CarDetector_, _load_model, try_except, bind. simpl. rewrite call_run.
  destruct (DetrImageProcessor_from_pretrained name) as [e|p]; simpl; [done|].
  rewrite call_run.
  by destruct (DetrForObjectDetection_from_pretrained name) as [e|m].
Qed.

End DetectorEdges.

(** ** More about the handlers: start-up, answers, invariants *)

Section ApiEdges.
Import Py Lib car_detector api Spec ApiSpec.
Context `{Platform}.
Local Open Scope py_scope.

(** Importing the module never raises: the global ends up naming the
    detector when the constructor returned one and [None] when it raised,
    and no file is touched either way. *)
Theorem init_detector_never_raises g w :
  exists w',
    init_detector (g, w) =
      (inr tt,
       ({| detector :=
             match fst (CarDetector_ "facebook/detr-resnet-50" 0.9%float (g, w)) with
             | inr d => Some d
             | inl _ => None
             end |}, w')) /\
    fs w' = fs w.
Proof.
  destruct (CarDetector_frame "facebook/detr-resnet-50" 0.9%float g w) as [Hg Hfs].
  unfold init_detector, try_except, bind.
  destruct (CarDetector_ "facebook/detr-resnet-50" 0.9%float (g, w)) as [[e|d] [g1 w1]];
    simpl in *; eexists; (split; [reflexivity | done]).
Qed.

(** After a start-up in which both parts load, GET /model-info answers
    200 with the default model name, the default threshold 0.9 and the
    names of the loaded model's vocabulary in its order, and changes
    nothing. *)
Theorem model_info_after_start g w p m :
  DetrImageProcessor_from_pretrained "facebook/detr-resnet-50" = inr p ->
  DetrForObjectDetection_from_pretrained "facebook/detr-resnet-50" = inr m ->
  exists s1,
    init_detector (g, w) = (inr tt, s1) /\
    handle GET_model_info s1 =
      ({| status_code := 200;
          body := body_model_info
                    {| info_model_name := "facebook/detr-resnet-50";
                       info_confidence_threshold := 0.9;
                       available_labels := Some (map snd (config_id2label m)) |} |},
       s1).
Proof.
  intros Hp Hm. eexists. split.
  - unfold init_detector, try_except, bind, CarDetector_, _load_model, try_except, bind.
    simpl. rewrite call_run, Hp. simpl. rewrite call_run, Hm. simpl. reflexivity.
  - reflexivity.
Qed.

(** When the handler of POST /detect-car returns a content, the upload was
    accepted and saved, and the content is built from what [detect_cars]
    returned on the temporary file. *)
Lemma detect_car_returns_inv file g w c :
  fst (detect_car file (g, w)) = inr c ->
  exists d has_cars_ detections_,
    g = {| detector := Some d |} /\
    upload_saved file w /\
    fst (detect_cars (mkstemp (fs w) ".jpg") (d, saved_world file w))
      = inr (has_cars_, detections_) /\
    c = {| dc_filename := filename file;
           has_cars := has_cars_;
           car_count := length detections_;
           detections := detections_;
           model_info := (model_name d, confidence_threshold d) |}.
Proof.
  destruct g as [[d|]]; [|done].
  destruct (content_type file) as [ct|] eqn:Hct.
  2:{ unfold detect_car, bind, content_type_startswith. simpl. by rewrite Hct. }
  destruct (String.prefix "image/" ct) eqn:Hpre.
  2:{ unfold detect_car, bind, content_type_startswith. simpl.
      rewrite Hct. simpl. by rewrite Hpre. }
  destruct (save_upload_cases file {| detector := Some d |} w)
    as [Hsaved | (msg & w' & Hsave)].
  2:{ by destruct (upload_handlers_unsaved _ _ _ _ _ _ Hct Hpre Hsave) as [-> _]. }
  destruct (upload_handlers_saved file d w ct Hct Hpre Hsaved) as (evs & _ & -> & _).
  simpl.
  destruct (fst (detect_cars _ _)) as [e|[b ds]] eqn:Hrun; [done|]. simpl.
  unfold json_render. destruct (List.find _ _) as [f|]; simpl; [done|].
  intros [= <-]. by exists d, b, ds.
Qed.

(** A response whose body is a detection content comes from a handler
    that returned that content. *)
Lemma body_detect_car_inv (r : exn + DetectCarContent) c :
  body (respond body_detect_car r) = body_detect_car c -> r = inr c.
Proof. destruct r as [e|c']; [by destruct e | by intros [= ->]]. Qed.


(** An upload that declares no content type, with the detector loaded:
    [startswith] is called on [None], the exception leaves the handler
    (the framework answers a bare 500), and no temporary file is created. *)
Theorem untyped_upload_escapes file d w :
  content_type file = None ->
  handle (POST_detect_car file) ({| detector := Some d |}, w) =
    ({| status_code := 500; body := body_internal_server_error |},
     ({| detector := Some d |}, w)) /\
  handle (POST_detect_car_simple file) ({| detector := Some d |}, w) =
    ({| status_code := 500; body := body_internal_server_error |},
     ({| detector := Some d |}, w)).
Proof.
  intros Hct.
  unfold handle, served, detect_car, api.detect_car_simple, bind, content_type_startswith.
  simpl. by rewrite Hct.
Qed.

(** Every record in the [detections] of a detection content has the label
    "car" and the format "xyxy". *)
Theorem detect_car_content_only_cars file s resp s' c :
  handle (POST_detect_car file) s = (resp, s') ->
  body resp = body_detect_car c ->
  Forall (fun d => label d = "car" /\ bbox_format d = "xyxy") (detections c).
Proof.
  destruct s as [g w]. unfold handle, served.
  destruct (detect_car file (g, w)) as [r s1] eqn:Hrun. intros [= <- <-] Hbody.
  apply body_detect_car_inv in Hbody. subst r.
  destruct (detect_car_returns_inv file g w c) as (d & b & ds & _ & _ & Hdc & ->);
    [by rewrite Hrun|].
  destruct (detect_cars _ _) as [r s2] eqn:Hdc'. simpl in Hdc. subst r.
  apply detect_cars_returns_spec in Hdc'
    as (p & m & image & inputs & outputs & results & rest
        & _ & _ & _ & _ & _ & _ & _ & ->).
  simpl. apply List.Forall_forall. intros det Hin.
  by apply car_filter_from_cars in Hin as (raw & _ & _ & ->).
Qed.

(** The [model_info] of a detection content is the model name and the
    threshold that GET /model-info reports in the same state. *)
Theorem detect_car_model_info_agrees file s resp s' c :
  handle (POST_detect_car file) s = (resp, s') ->
  body resp = body_detect_car c ->
  exists info,
    handle GET_model_info s = ({| status_code := 200; body := body_model_info info |}, s) /\
    model_info c = (info_model_name info, info_confidence_threshold info).
Proof.
  destruct s as [g w]. unfold handle at 1, served.
  destruct (detect_car file (g, w)) as [r s1] eqn:Hrun. intros [= <- <-] Hbody.
  apply body_detect_car_inv in Hbody. subst r.
  destruct (detect_car_returns_inv file g w c) as (d & b & ds & -> & _ & _ & ->);
    [by rewrite Hrun|].
  eexists. split; reflexivity.
Qed.



(** While the detector is not loaded, the only request answered 200 is
    GET /, which reports "healthy" all the same. *)
Theorem only_root_answers_unloaded req w :
  handle GET_root ({| detector := None |}, w) =
    ({| status_code := 200;
        body := body_root {| message := "Car Detection API is running";
                             status := "healthy" |} |},
     ({| detector := None |}, w)) /\
  (status_code (fst (handle req ({| detector := None |}, w))) = 200%Z <-> req = GET_root).
Proof.
  split; [done|]. destruct req; simpl; split; (done || discriminate).
Qed.

(** An accepted and saved upload whose bytes do not decode: the bytes
    written to the temporary file are the bytes [Image.open] reads back,
    and both upload handlers answer 500 "Error processing image: "
    followed by the decoder's message. *)
Theorem undecodable_saved_upload_answer file d w ct e :
  content_type file = Some ct ->
  String.prefix "image/" ct = true ->
  upload_saved file w ->
  Image_decode (content file) = inl e ->
  fst (handle (POST_detect_car file) ({| detector := Some d |}, w)) =
    {| status_code := 500;
       body := body_detail ("Error processing image: " +:+ str e) |} /\
  fst (handle (POST_detect_car_simple file) ({| detector := Some d |}, w)) =
    {| status_code := 500;
       body := body_detail ("Error processing image: " +:+ str e) |}.
Proof.
  intros Hct Hpre Hsaved Hdec.
  destruct (upload_handlers_saved file d w ct Hct Hpre Hsaved) as (evs & _ & Hfull & Hsimple).
  assert (fst (detect_cars (mkstemp (fs w) ".jpg") (d, saved_world file w)) = inl e) as Hdc.
  { erewrite detect_cars_load_fails; [reflexivity | |].
    - simpl. rewrite lookup_insert_eq. by eexists.
    - apply (load_image_decode_fails _ _ _ (content file)); [|done].
      simpl. apply lookup_insert_eq. }
  rewrite Hdc in Hfull, Hsimple. unfold handle, served. by rewrite Hfull, Hsimple.
Qed.


(** A float that is not finite among the detections (or as threshold):
    the content of POST /detect-car does not render, which the handler
    answers with 500 "Error processing image: " and the encoder's message,
    while POST /detect-car-simple, whose content has no float, answers 200
    with the flag. *)
Theorem non_finite_float_answers file d w ct has_cars_ detections_ f :
  content_type file = Some ct ->
  String.prefix "image/" ct = true ->
  upload_saved file w ->
  fst (detect_cars (mkstemp (fs w) ".jpg") (d, saved_world file w))
    = inr (has_cars_, detections_) ->
  List.find (fun x => negb (PrimFloat.is_finite x))
            (detection_floats detections_ ++ [confidence_threshold d]) = Some f ->
  fst (handle (POST_detect_car file) ({| detector := Some d |}, w)) =
    {| status_code := 500;
       body := body_detail ("Error processing image: " +:+ json_float_error f) |} /\
  fst (handle (POST_detect_car_simple file) ({| detector := Some d |}, w)) =
    {| status_code := 200;
       body := body_detect_car_simple
                 {| dcs_filename := filename file; car_detected := has_cars_ |} |}.
Proof.
  intros Hct Hpre Hsaved Hrun Hfind.
  destruct (upload_handlers_saved file d w ct Hct Hpre Hsaved) as (evs & _ & Hfull & Hsimple).
  rewrite Hrun in Hfull, Hsimple. unfold handle, served. rewrite Hfull, Hsimple.
  simpl. unfold json_render. by rewrite Hfind.
Qed.

End ApiEdges.

(** ** The further facts at work on the concrete platform *)

Module MoreRuns.
Import Py Lib car_detector api Spec Demo.
#[local] Existing Instance imaging.
#[local] Existing Instance platform.

Lemma default_model_loads :
  CarDetector_ "facebook/detr-resnet-50" 0.9%float (tt, world0) =
    (inr demo_detector,
     (tt, {| fs := fs world0;
             trace := [ logger_info "Loading model: facebook/detr-resnet-50";
                        from_pretrained_call "DetrImageProcessor" "facebook/detr-resnet-50";
                        from_pretrained_call "DetrForObjectDetection" "facebook/detr-resnet-50";
                        logger_info "Model loaded successfully" ] |})).
Proof.
  apply (CarDetector_loaded "facebook/detr-resnet-50" 0.9%float tt world0
           demo_processor demo_model); reflexivity.
Defined.

Lemma offline_constructor :
  CarDetector_ (H0 := offline) "facebook/detr-resnet-50" 0.9%float (tt, world0) =
    (inl (LibraryError "We couldn't connect to 'https://huggingface.co'"),
     (tt, {| fs := fs world0;
             trace := [ logger_info "Loading model: facebook/detr-resnet-50";
                        from_pretrained_call "DetrImageProcessor" "facebook/detr-resnet-50";
                        logger_error
                          "Failed to load model: We couldn't connect to 'https://huggingface.co'"
                      ] |})).
Proof.
  apply (CarDetector_processor_failure (H0 := offline)
           "facebook/detr-resnet-50" 0.9%float tt world0). reflexivity.
Defined.

Lemma half_loaded_constructor :
  CarDetector_ (H0 := half_platform) "facebook/detr-resnet-50" 0.9%float (tt, world0) =
    (inl (LibraryError "model.safetensors not found"),
     (tt, {| fs := fs world0;
             trace := [ logger_info "Loading model: facebook/detr-resnet-50";
                        from_pretrained_call "DetrImageProcessor" "facebook/detr-resnet-50";
                        from_pretrained_call "DetrForObjectDetection" "facebook/detr-resnet-50";
                        logger_error "Failed to load model: model.safetensors not found" ] |})).
Proof.
  apply (CarDetector_model_failure (H0 := half_platform)
           "facebook/detr-resnet-50" 0.9%float tt world0 demo_processor); reflexivity.
Defined.

Lemma notes_file_reraised :
  detect_cars "/data/notes.txt" (demo_detector, world1) =
    (inl (LibraryError "cannot identify image file"),
     (demo_detector,
      {| fs := fs world1;
         trace := [ os_path_exists "/data/notes.txt"; Image_open_call "/data/notes.txt";
                    logger_error
                      "Error processing image /data/notes.txt: cannot identify image file" ] |})).
Proof.
  apply (detect_cars_reraises demo_detector world1 "/data/notes.txt"
           (LibraryError "cannot identify image file")
           (demo_detector,
            {| fs := fs world1;
               trace := [ os_path_exists "/data/notes.txt";
                          Image_open_call "/data/notes.txt" ] |})).
  - eexists. reflexivity.
  - left. reflexivity.
Defined.

(** The truck of the street picture, for a model that does not know the
    label id 7: the two cars found before it are lost with it. *)
Lemma street_truck_unknown :
  fst (detect_cars "/data/street.jpg" (small_detector, world0)) = inl (KeyError 7).
Proof.
  erewrite (detect_cars_unknown_label small_detector world0 "/data/street.jpg"
              street_image _ _ _ small_model
              [ (0.95%float, 2%Z, [100; 100; 200; 200]%float);
                (0.92%float, 0%Z, [500; 500; 600; 600]%float);
                (0.97%float, 2%Z, [300; 300; 400; 400]%float) ]
              (0.99%float, 7%Z, [0; 0; 50; 50]%float) []).
  - reflexivity.
  - eexists. reflexivity.
  - lazy. reflexivity.
  - lazy. reflexivity.
  - reflexivity.
  - reflexivity.
  - repeat constructor; eexists; reflexivity.
  - reflexivity.
Defined.

Lemma gray_picture_converted :
  exists image s1 results s2,
    load_image "/data/gray.jpg" (demo_detector, emit (os_path_exists "/data/gray.jpg") world1)
      = (inr image, s1) /\
    run_inference image s1 = (inr results, s2) /\
    Image_mode image = "RGB".
Proof.
  apply (detect_cars_runs_on_rgb demo_detector world1 "/data/gray.jpg"
           (true,
            [ {| label := "car"; confidence := 0.95; bbox := [100; 100; 200; 200]%float;
                 bbox_format := "xyxy" |};
              {| label := "car"; confidence := 0.97; bbox := [300; 300; 400; 400]%float;
                 bbox_format := "xyxy" |} ])
           (snd (detect_cars "/data/gray.jpg" (demo_detector, world1)))).
  - intros image image' Hc. injection Hc as <-. reflexivity.
  - reflexivity.
Defined.

Lemma strict_threshold_no_car :
  fst (detect_cars "/data/street.jpg" (strict_detector, world0)) = inr (false, []).
Proof.
  erewrite (detect_cars_no_detection strict_detector world0 "/data/street.jpg").
  - reflexivity.
  - eexists. reflexivity.
  - lazy. reflexivity.
  - lazy. reflexivity.
  - left. reflexivity.
Defined.

Lemma street_log_line :
  last (trace (snd (snd (detect_cars "/data/street.jpg" (demo_detector, world0))))) =
    Some (logger_info "Detected 2 cars in /data/street.jpg").
Proof.
  eapply (detect_cars_logs_count demo_detector world0 "/data/street.jpg" true
            [ {| label := "car"; confidence := 0.95; bbox := [100; 100; 200; 200]%float;
                 bbox_format := "xyxy" |};
              {| label := "car"; confidence := 0.97; bbox := [300; 300; 400; 400]%float;
                 bbox_format := "xyxy" |} ]
            (snd (detect_cars "/data/street.jpg" (demo_detector, world0)))).
  reflexivity.
Defined.

Lemma street_car_listed :
  exists info labels_,
    car_detector.get_model_info (demo_detector, world0) = (inr info, (demo_detector, world0)) /\
    available_labels info = Some labels_ /\
    In "car" labels_.
Proof.
  apply (car_found_is_listed demo_detector world0 "/data/street.jpg"
           [ {| label := "car"; confidence := 0.95; bbox := [100; 100; 200; 200]%float;
                bbox_format := "xyxy" |};
             {| label := "car"; confidence := 0.97; bbox := [300; 300; 400; 400]%float;
                bbox_format := "xyxy" |} ]
           (snd (detect_cars "/data/street.jpg" (demo_detector, world0)))).
  reflexivity.
Defined.

Lemma model_info_after_demo_start :
  exists s1,
    init_detector ({| detector := None |}, world0) = (inr tt, s1) /\
    handle GET_model_info s1 =
      ({| status_code := 200;
          body := body_model_info
                    {| info_model_name := "facebook/detr-resnet-50";
                       info_confidence_threshold := 0.9;
                       available_labels :=
                         Some [ "person"; "bicycle"; "car"; "motorcycle"; "truck" ] |} |},
       s1).
Proof.
  apply (model_info_after_start {| detector := None |} world0 demo_processor demo_model);
    reflexivity.
Defined.


Lemma untyped_upload_run :
  handle (POST_detect_car untyped_upload) ({| detector := Some demo_detector |}, world0) =
    ({| status_code := 500; body := body_internal_server_error |},
     ({| detector := Some demo_detector |}, world0)) /\
  handle (POST_detect_car_simple untyped_upload) ({| detector := Some demo_detector |}, world0) =
    ({| status_code := 500; body := body_internal_server_error |},
     ({| detector := Some demo_detector |}, world0)).
Proof.
  apply (untyped_upload_escapes untyped_upload demo_detector world0). reflexivity.
Defined.

Lemma jpeg_upload_only_cars :
  Forall (fun d => label d = "car" /\ bbox_format d = "xyxy") (detections jpeg_content).
Proof.
  apply (detect_car_content_only_cars jpeg_upload
           ({| detector := Some demo_detector |}, world0)
           (fst (handle (POST_detect_car jpeg_upload)
                   ({| detector := Some demo_detector |}, world0)))
           (snd (handle (POST_detect_car jpeg_upload)
                   ({| detector := Some demo_detector |}, world0)))
           jpeg_content); reflexivity.
Defined.

Lemma jpeg_upload_model_info :
  exists info,
    handle GET_model_info ({| detector := Some demo_detector |}, world0) =
      ({| status_code := 200; body := body_model_info info |},
       ({| detector := Some demo_detector |}, world0)) /\
    model_info jpeg_content = (info_model_name info, info_confidence_threshold info).
Proof.
  apply (detect_car_model_info_agrees jpeg_upload
           ({| detector := Some demo_detector |}, world0)
           (fst (handle (POST_detect_car jpeg_upload)
                   ({| detector := Some demo_detector |}, world0)))
           (snd (handle (POST_detect_car jpeg_upload)
                   ({| detector := Some demo_detector |}, world0)))
           jpeg_content); reflexivity.
Defined.

Lemma broken_saved_upload_answer :
  fst (handle (POST_detect_car broken_upload) ({| detector := Some demo_detector |}, world0)) =
    {| status_code := 500;
       body := body_detail "Error processing image: cannot identify image file" |} /\
  fst (handle (POST_detect_car_simple broken_upload)
         ({| detector := Some demo_detector |}, world0)) =
    {| status_code := 500;
       body := body_detail "Error processing image: cannot identify image file" |}.
Proof.
  apply (undecodable_saved_upload_answer broken_upload demo_detector world0 "image/png"
           (LibraryError "cannot identify image file")); try reflexivity.
  repeat split.
Defined.

Lemma demo_saves file w : upload_saved file w.
Proof. repeat split. Defined.



(** A box that is not finite: one endpoint answers 500, the other 200. *)
Lemma glare_upload_answers :
  fst (handle (POST_detect_car jpeg_upload) ({| detector := Some glare_detector |}, world0)) =
    {| status_code := 500;
       body := body_detail
         "Error processing image: Out of range float values are not JSON compliant" |} /\
  fst (handle (POST_detect_car_simple jpeg_upload)
         ({| detector := Some glare_detector |}, world0)) =
    {| status_code := 200;
       body := body_detect_car_simple
                 {| dcs_filename := Some "test.jpg"; car_detected := true |} |}.
Proof.
  exact (non_finite_float_answers jpeg_upload glare_detector world0 "image/jpeg" true
           [ {| label := "car"; confidence := 0.99;
                bbox := [0%float; 0%float; PrimFloat.infinity; PrimFloat.infinity];
                bbox_format := "xyxy" |} ]
           PrimFloat.infinity eq_refl eq_refl (demo_saves _ _) eq_refl eq_refl).
Defined.

End MoreRuns.
